(** * Low-temperature PEM electrolyzer cluster model: embedding and properties

    Shallow embedding of [hybrid/PEM_Model_2Push/PEM_H2_LT_electrolyzer_Clusters.py]
    (class [PEM_H2_Clusters]).

    Numbers.  The program computes on numpy [float64] arrays.  An array is a
    [list], an integer array (the 0/1 cluster status, cycle counts) a [list Z], a
    float array a [list Q]: arithmetic is exact, rounding is not modelled.  The
    only non-finite values the program can create from finite data come from its
    divisions by an array that may hold zeros; those divisions return an
    [npfloat], which keeps numpy's [inf] and [nan] apart from the finite values.

    Libraries.  [np.log], [np.exp], [np.arcsinh], float powers, and
    [rainflow.count_cycles] are not part of the repository: they are the
    variables of the section below.  The coefficients that
    [scipy.optimize.curve_fit] returns in [iv_curve] are a field of the engine. *)

From Stdlib Require Import QArith Qabs Qminmax Lqa ZArith List Lia Bool Morphisms.
Import ListNotations.
Local Open Scope Q_scope.

(** ** numpy on lists *)

Module Np.

(** [x < y] and [x > y] on floats, as numpy evaluates them elementwise. *)
Definition ltb (x y : Q) : bool :=
  match x ?= y with Lt => true | _ => false end.
Definition gtb (x y : Q) : bool := ltb y x.
Definition geb (x y : Q) : bool := negb (ltb x y).

(** Elementwise binary operation on two arrays of one length. *)
Fixpoint map2 {A B C} (f : A -> B -> C) (l1 : list A) (l2 : list B) : list C :=
  match l1, l2 with
  | x :: l1', y :: l2' => f x y :: map2 f l1' l2'
  | _, _ => []
  end.

(** [np.diff] on an integer array: [out[i] = a[i+1] - a[i]]. *)
Fixpoint diff_from (prev : Z) (l : list Z) : list Z :=
  match l with
  | [] => []
  | x :: l' => (x - prev)%Z :: diff_from x l'
  end.
Definition diff (l : list Z) : list Z :=
  match l with
  | [] => []
  | x :: l' => diff_from x l'
  end.

(** [np.cumsum] and [np.sum]. *)
Fixpoint cumsum_from (acc : Q) (l : list Q) : list Q :=
  match l with
  | [] => []
  | x :: l' => (acc + x) :: cumsum_from (acc + x) l'
  end.
Definition cumsum (l : list Q) : list Q := cumsum_from 0 l.
Definition sum (l : list Q) : Q := fold_left Qplus l 0.

(** [a[-1]]: the last element, an [IndexError] on an empty array. *)
Definition last_opt {A} (l : list A) : option A :=
  match l with
  | [] => None
  | x :: l' => Some (last l' x)
  end.

(** [np.nonzero(a)[0]]: the positions of the non-zero entries of [a]. *)
Fixpoint nonzero_from (i : nat) (l : list Q) : list nat :=
  match l with
  | [] => []
  | x :: l' =>
      if Qeq_bool x 0 then nonzero_from (S i) l' else i :: nonzero_from (S i) l'
  end.
Definition nonzero (l : list Q) : list nat := nonzero_from 0 l.

(** [a[idx]] for an index array [idx] (every index below [len(a)]). *)
Definition take (l : list Q) (idx : list nat) : list Q :=
  map (fun j => nth j l 0) idx.

(** [a[lo:hi]] for [0 <= lo <= hi]. *)
Definition slice {A} (l : list A) (lo hi : nat) : list A :=
  firstn (hi - lo) (skipn lo l).

(** [a[lo:hi] = c]: the positions [lo <= i < hi] that exist are set to [c]. *)
Fixpoint fill_from (i : nat) (l : list Q) (lo hi : nat) (c : Q) : list Q :=
  match l with
  | [] => []
  | x :: l' =>
      (if (lo <=? i)%nat && (i <? hi)%nat then c else x)
        :: fill_from (S i) l' lo hi c
  end.
Definition fill (l : list Q) (lo hi : nat) (c : Q) : list Q :=
  fill_from 0 l lo hi c.

(** [np.arange(0, stop, step)] for integers, [step > 0]: the multiples of
    [step] below [stop]. *)
Definition arange (stop step : nat) : list nat :=
  map (fun k => (k * step)%nat) (seq 0 ((stop + step - 1) / step)).

Definition zeros (n : nat) : list Q := repeat 0 n.

End Np.

(** numpy's float division, for the places where the divisor may be zero: a
    finite quotient, [inf] (of either sign) or [nan]. *)
Inductive npfloat : Type :=
| Fin (q : Q)
| Inf
| NaN.

Definition np_divide (x y : Q) : npfloat :=
  if Qeq_bool y 0 then (if Qeq_bool x 0 then NaN else Inf) else Fin (x / y).

(** Division and product when an operand may already be [inf] or [nan]. *)
Definition npf_div (x y : npfloat) : npfloat :=
  match x, y with
  | NaN, _ | _, NaN => NaN
  | Inf, Inf => NaN
  | Inf, Fin _ => Inf
  | Fin _, Inf => Fin 0
  | Fin a, Fin b => np_divide a b
  end.

Definition npf_mul (x y : npfloat) : npfloat :=
  match x, y with
  | NaN, _ | _, NaN => NaN
  | Inf, Inf => Inf
  | Inf, Fin a | Fin a, Inf => if Qeq_bool a 0 then NaN else Inf
  | Fin a, Fin b => Fin (a * b)
  end.

Definition is_finite (x : npfloat) : bool :=
  match x with Fin _ => true | _ => false end.

(** ** The engine *)

(** The six parameters [calc_current] receives; [curve_fit] fits all six, the
    formula reads five. *)
Record curve_coefficients : Type := {
  p1 : Q; p2 : Q; p3 : Q; p4 : Q; p5 : Q; p6 : Q
}.

(** The attributes of a [PEM_H2_Clusters] instance that [__init__] takes from
    its arguments or from the curve fit.  The instance is a freshly
    constructed one: what an earlier call of [run] left in its attributes
    ([off_cycle_cnt] among them) is not carried into the next call. *)
Record PEM_H2_Clusters : Type := {
  max_stacks : Q;               (* cluster_size_mw *)
  plant_life_years : Q;
  include_deg_penalty : bool;
  use_onoff_deg : bool;
  use_uptime_deg : bool;
  use_fatigue_deg : bool;
  dt : Q;
  curve_coeff : curve_coefficients;
  d_eol : Q
}.

(** The attributes [__init__] sets to constants. *)
Definition stack_rating_kW : Q := 1000.
Definition cell_active_area : Q := 1920.
Definition N_cells : Q := 130.
Definition membrane_thickness : Q := 0.018.
Definition moles_per_g_h2 : Q := 0.49606.
Definition F : Q := 96485.34.
Definition R : Q := 8.314.
Definition T_C : Q := 80.
Definition mmHg_2_Pa : Q := 133.322.
Definition patmo : Q := 101325.
Definition mmHg_2_atm : Q := mmHg_2_Pa / patmo.

(** [external_power_supply]: the power handed on, and the array stored under
    ['Curtailed Power [kWh]']. *)
Definition external_power_supply (self : PEM_H2_Clusters)
    (input_external_power_kw : list Q) : list Q * list Q :=
  let power_curtailed_kw :=
    map (fun p => if Np.gtb p (max_stacks self * stack_rating_kW)
                  then p - max_stacks self * stack_rating_kW else 0)
        input_external_power_kw in
  let input_power_kw :=
    map (fun p => if Np.gtb p (max_stacks self * stack_rating_kW)
                  then max_stacks self * stack_rating_kW else p)
        input_external_power_kw in
  (input_power_kw, power_curtailed_kw).

(** [system_design]. *)
Definition system_design (input_power_kw : list Q) (cluster_size_mw : Q) : list Z :=
  let cluster_min_power := 0.1 * cluster_size_mw in
  map (fun p => if Np.ltb p cluster_min_power then 0%Z else 1%Z) input_power_kw.

(** Python exceptions the methods can raise on their own (not inside a
    library), and the result of a method that can raise. *)
Inductive exn : Type :=
| IndexError
| UnboundLocalError
| AttributeError
| ZeroDivisionError.

Definition result (A : Type) : Type := (exn + A)%type.
Definition ret {A} (x : A) : result A := inr x.
Definition raise {A} (e : exn) : result A := inl e.
Definition bind {A B} (c : result A) (k : A -> result B) : result B :=
  match c with
  | inl e => inl e
  | inr x => k x
  end.

Declare Scope result_scope.
Delimit Scope result_scope with result.
Notation "x <- c ;; k" := (bind c (fun x => k))
  (at level 61, c at next level, right associativity) : result_scope.
Notation "' pat <- c ;; k" := (bind c (fun x => match x with pat => k end))
  (at level 61, pat pattern, c at next level, right associativity) : result_scope.

(** A local variable or an instance attribute is [None] until an assignment
    has run; reading it before raises. *)
Definition read_local {A} (v : option A) : result A :=
  match v with
  | Some x => ret x
  | None => raise UnboundLocalError
  end.
Definition read_attr {A} (v : option A) : result A :=
  match v with
  | Some x => ret x
  | None => raise AttributeError
  end.

(** [a[-1]]. *)
Definition last_elem {A} (l : list A) : result A :=
  match Np.last_opt l with
  | Some x => ret x
  | None => raise IndexError
  end.

(** [faradaic_efficiency], for one current. *)
Definition faradaic_efficiency (stack_current : Q) : Q :=
  let f_1 := 250 in
  let f_2 := 0.996 in
  let I_cell := stack_current * 1000 in
  (((I_cell / cell_active_area) ^ 2) /
   (f_1 + ((I_cell / cell_active_area) ^ 2))) * f_2.

(** [total_efficiency]: the other two factors are commented out. *)
Definition total_efficiency (stack_current : Q) : Q :=
  faradaic_efficiency stack_current.

(** [h2_production_rate], for one current and one count of stacks. *)
Definition h2_production_rate (self : PEM_H2_Clusters)
    (stack_current n_stacks_op : Q) : Q :=
  let n_Tot := total_efficiency stack_current in
  let h2_production_rate := n_Tot * ((N_cells * stack_current) / (2 * F)) in
  let h2_production_rate_g_s := h2_production_rate / moles_per_g_h2 in
  let h2_produced_kg_hr := h2_production_rate_g_s * (dt self / 1000) in
  n_stacks_op * h2_produced_kg_hr.

(** [water_supply]: gallons per step. *)
Definition water_supply (h2_kg_hr : list Q) : list Q :=
  let water_used_kg_hr_system := map (fun h => h * 10) h2_kg_hr in
  map (fun w => w / 3.79) water_used_kg_hr_system.

(** The cycle count the engine stores in [off_cycle_cnt]. *)
Definition off_cycle_cnt (cluster_status : list Z) : list Z :=
  let change_stack := Np.diff cluster_status in
  let cycle_cnt := map (fun c => if (c <? 0)%Z then (-1 * c)%Z else 0%Z) change_stack in
  0%Z :: cycle_cnt.

(** [calc_onoff_degradation]. *)
Definition onoff_deg_rate : Q := 1.47821515e-04.
Definition calc_onoff_degradation (cluster_status : list Z) : list Q :=
  map (fun c => onoff_deg_rate * inject_Z c) (off_cycle_cnt cluster_status).

(** [calc_uptime_degradation]; [cumulative_Vdeg[-1]] needs a non-empty array. *)
Definition steady_deg_rate : Q := 1.41737929e-10.
Definition calc_uptime_degradation (self : PEM_H2_Clusters)
    (cluster_status : list Z) (voltage_signal : list Q) : result (list Q) :=
  let steady_deg_per_hr :=
    Np.map2 (fun v s => dt self * steady_deg_rate * v * inject_Z s)
            voltage_signal cluster_status in
  let cumulative_Vdeg := Np.cumsum steady_deg_per_hr in
  (_ <- last_elem cumulative_Vdeg ;;
   ret steady_deg_per_hr)%result.

(** [calc_stack_replacement_info]: the number of lifetime replacements, and
    the value stored in [time_between_replacements]. *)
Definition calc_stack_replacement_info (self : PEM_H2_Clusters)
    (deg_signal : list Q) : result (npfloat * npfloat) :=
  let t_sim_sec := inject_Z (Z.of_nat (length deg_signal)) * dt self in
  (d_sim <- last_elem deg_signal ;;
   let t_eod := npf_mul (np_divide (d_eol self) d_sim) (Fin (t_sim_sec / 3600)) in
   let plant_life_hrs := plant_life_years self * 8760 in
   let num_clusterrep := npf_div (Fin plant_life_hrs) t_eod in
   ret (num_clusterrep, t_eod))%result.

Section Libraries.

(** numpy's elementary functions, at one float. *)
Variable np_log : Q -> Q.
Variable np_sqrt : Q -> Q.
Variable np_exp : Q -> Q.
Variable np_arcsinh : Q -> Q.
(** [x ** y] with a float exponent, where numpy gives a number (for a
    negative base and the exponent 1/2 it gives [nan], which the clamp of
    [find_equivalent_input_power_4_deg] turns into 0). *)
Variable np_power : Q -> Q -> Q.

(** [rainflow.count_cycles(series, nbins=10)]: the sorted list of
    [(range, count)] pairs of a call that returns.  A call on which the
    library raises (an empty or a constant series) ends the run with the
    library's error; such runs are not described here, and the properties
    of results are stated for the runs that return. *)
Variable count_cycles : list Q -> list (Q * Q).

(** [calc_current], for one power. *)
Definition calc_current (pwr tempc : Q) (c : curve_coefficients) : Q :=
  p1 c * (pwr ^ 3) + p2 c * (pwr ^ 2) + (p3 c * pwr)
  + (p4 c * np_power pwr (1 / 2)) + p5 c.

(** [calc_reversible_cell_voltage]; [E_rev], which the method computes and
    never uses, is left out. *)
Definition calc_reversible_cell_voltage (Stack_T : Q) : Q :=
  let T_K := Stack_T + 273.15 in
  let E_rev0 := 1.229 in
  let panode_atm := 1 in
  let pcathode_atm := 1 in
  let patmo_atm := 1 in
  let A := 8.07131 in
  let B := 1730.63 in
  let C := 233.426 in
  let p_h2o_sat_mmHg := np_power 10 (A - (B / (C + Stack_T))) in
  let p_h20_sat_atm := p_h2o_sat_mmHg * mmHg_2_atm in
  E_rev0 + ((R * T_K) / (2 * F))
           * np_log (((panode_atm - p_h20_sat_atm) / patmo_atm)
                     * np_sqrt ((pcathode_atm - p_h20_sat_atm) / patmo_atm)).

Definition calc_V_act (Stack_T I_stack cell_active_area : Q) : Q :=
  let T_K := Stack_T + 273.15 in
  let i := I_stack / cell_active_area in
  let a_a := 2 in
  let a_c := 0.5 in
  let i_o_a := 2 * 1e-7 in
  let i_o_c := 2 * 1e-3 in
  let V_anode := ((R * T_K) / (a_a * F)) * np_arcsinh (i / (2 * i_o_a)) in
  let V_cathode := ((R * T_K) / (a_c * F)) * np_arcsinh (i / (2 * i_o_c)) in
  V_anode + V_cathode.

Definition calc_V_ohmic (Stack_T I_stack cell_active_area delta_cm : Q) : Q :=
  let T_K := Stack_T + 273.15 in
  let i := I_stack / cell_active_area in
  let lambda_water_content := ((-2.89556 + (0.016 * T_K)) + 1.625) / 0.1875 in
  let sigma := ((0.005139 * lambda_water_content) - 0.00326)
               * np_exp (1268 * ((1 / 303) - (1 / T_K))) in
  let R_cell := delta_cm / sigma in
  let R_elec := 3.5 * 1e-5 in
  i * (R_cell + R_elec).

Definition cell_design (Stack_T Stack_Current : Q) : Q :=
  let E_cell := calc_reversible_cell_voltage Stack_T in
  let V_act := calc_V_act Stack_T Stack_Current cell_active_area in
  let V_ohmic :=
    calc_V_ohmic Stack_T Stack_Current cell_active_area membrane_thickness in
  E_cell + V_act + V_ohmic.

(** *** Degradation *)

Definition rate_fatigue : Q := 3.33330244e-07.
Definition dt_fatigue_calc_hrs : nat := 24 * 7.

(** [np.sum([pair[0] * pair[1] for pair in rf_cycles])]. *)
Definition rf_sum (rf_cycles : list (Q * Q)) : Q :=
  Np.sum (map (fun pair => fst pair * snd pair) rf_cycles).

(** [voltage_signal[np.nonzero(voltage_signal[lo:hi])]]: the samples handed
    to the cycle count for the window [lo:hi]. *)
Definition voltage_signal_temp (voltage_signal : list Q) (lo hi : nat) : list Q :=
  Np.take voltage_signal (Np.nonzero (Np.slice voltage_signal lo hi)).

(** One turn of the loop over the windows: the state is [rf_track] and
    [V_fatigue_ts]. *)
Definition fatigue_step (voltage_signal : list Q) (t_calc : list nat)
    (st : Q * list Q) (i : nat) : Q * list Q :=
  let lo := nth i t_calc 0%nat in
  let hi := nth (S i) t_calc 0%nat in
  let rf_cycles := count_cycles (voltage_signal_temp voltage_signal lo hi) in
  let rf_track := fst st + rf_sum rf_cycles in
  (rf_track, Np.fill (snd st) lo hi (rf_track * rate_fatigue)).

Definition fatigue_loop (voltage_signal : list Q) : Q * list Q :=
  let t_calc :=
    Np.arange (length voltage_signal + dt_fatigue_calc_hrs) dt_fatigue_calc_hrs in
  fold_left (fatigue_step voltage_signal t_calc)
            (seq 0 (length t_calc - 1))
            (0, Np.zeros (length voltage_signal)).

(** [approx_fatigue_degradation]; [V_fatigue_ts[-1]] needs a non-empty
    array.  The whole-series count only feeds an entry of [output_dict]. *)
Definition approx_fatigue_degradation (voltage_signal : list Q) : result (list Q) :=
  let lifetime_fatigue_deg := rf_sum (count_cycles voltage_signal) * rate_fatigue in
  let V_fatigue_ts := snd (fatigue_loop voltage_signal) in
  (_ <- last_elem V_fatigue_ts ;;
   ret V_fatigue_ts)%result.

(** [full_degradation]: [(voltage_final, deg_signal)], and what the call
    leaves in [off_cycle_cnt] ([None] when [calc_onoff_degradation] did not
    run). *)
Definition full_degradation (self : PEM_H2_Clusters) (cluster_status : list Z)
    (voltage_signal : list Q) : result (list Q * list Q * option (list Z)) :=
  let voltage_signal :=
    Np.map2 (fun v s => v * inject_Z s) voltage_signal cluster_status in
  (V_deg_uptime <-
     (if use_uptime_deg self
      then calc_uptime_degradation self cluster_status voltage_signal
      else ret (Np.zeros (length voltage_signal))) ;;
   let V_deg_onoff :=
     if use_onoff_deg self
     then calc_onoff_degradation cluster_status
     else Np.zeros (length voltage_signal) in
   let V_signal :=
     Np.map2 Qplus (Np.map2 Qplus voltage_signal (Np.cumsum V_deg_uptime))
             (Np.cumsum V_deg_onoff) in
   V_fatigue <-
     (if use_fatigue_deg self
      then approx_fatigue_degradation V_signal
      else ret (Np.zeros (length voltage_signal))) ;;
   let deg_signal :=
     Np.map2 Qplus (Np.map2 Qplus (Np.cumsum V_deg_uptime) (Np.cumsum V_deg_onoff))
             V_fatigue in
   let voltage_final := Np.map2 Qplus voltage_signal deg_signal in
   ret (voltage_final, deg_signal,
        if use_onoff_deg self then Some (off_cycle_cnt cluster_status) else None)
  )%result.

(** [find_equivalent_input_power_4_deg]: the current it returns.  The
    voltages and powers it recomputes at that current only go to
    [output_dict]. *)
Definition find_equivalent_input_power_4_deg (self : PEM_H2_Clusters)
    (cluster_status : list Z) (power_in_kW V_init V_deg : list Q) : list Q :=
  let I_in := map (fun p => calc_current p T_C (curve_coeff self)) power_in_kW in
  let P_consumed_kW :=
    Np.map2 (fun i v => i * v * N_cells / 1000) I_in (Np.map2 Qplus V_init V_deg) in
  let P_consumed_kW :=
    Np.map2 (fun pc p => if Np.geb pc p then pc else p) P_consumed_kW power_in_kW in
  let P_consumed_kW :=
    Np.map2 (fun pc s => pc * inject_Z s) P_consumed_kW cluster_status in
  let power_diff_error_kW := Np.map2 Qminus P_consumed_kW power_in_kW in
  let P_equiv := Np.map2 Qminus power_in_kW power_diff_error_kW in
  let I_equiv := map (fun p => calc_current p T_C (curve_coeff self)) P_equiv in
  map (fun i => if Np.gtb i 0 then i else 0) I_equiv.

(** [rated_h2_prod]. *)
Definition rated_h2_prod (self : PEM_H2_Clusters) : Q * Q :=
  let I_max := calc_current stack_rating_kW T_C (curve_coeff self) in
  let V_max := cell_design T_C I_max in
  let P_consumed_stack_kw := I_max * V_max * N_cells / 1000 in
  let max_h2_stack_kg := h2_production_rate self I_max 1 in
  (P_consumed_stack_kw, max_h2_stack_kg).

(** [system_efficiency]: a division by the input power, step by step. *)
Definition system_efficiency (self : PEM_H2_Clusters)
    (n_stacks_op P_sys I : list Q) : list npfloat :=
  let e_h2 := 39.41 in
  let system_h2_prod_rate := Np.map2 (h2_production_rate self) I n_stacks_op in
  Np.map2 (fun h p => np_divide (e_h2 * h) p) system_h2_prod_rate P_sys.

(** *** The simulation *)

(** The time series of [h2_results]. *)
Record h2_results : Type := {
  Input_Power_kWh : list Q;
  hydrogen_production_no_startup_time : list Q;
  hydrogen_hourly_production : list Q;
  water_hourly_usage_gal : list Q;
  water_hourly_usage_kg : list Q;
  electrolyzer_total_efficiency_perc : list npfloat;
  kwh_per_kgH2 : list npfloat;
  Power_Consumed_kWh : list Q;
  Stacks_on : list Q;
  Power_Per_Stack_kW : list Q;
  Stack_Current_A : list Q;
  V_cell_No_Deg : list Q;
  V_cell_With_Deg : list Q;
  System_Degradation_V : list Q
}.

(** The scalars of [h2_results_aggregates]. *)
Record h2_results_aggregates : Type := {
  Stack_Rated_Power_Consumed_kWh : Q;
  Stack_Rated_H2_Production_kg_hr : Q;
  Avg_hrs_until_Replacement_Per_Stack : npfloat;
  Number_of_Lifetime_Cluster_Replacements : npfloat;
  PEM_Capacity_Factor : npfloat;
  Total_H2_Production_kg : Q;
  Total_Input_Power_kWh : Q;
  Total_kWh_per_kg : npfloat;
  Total_Uptime_sec : Q;
  Total_Off_Cycles : Z;
  Final_Degradation_V : Q;
  IV_curve_coeff : curve_coefficients
}.

(** [h2_multiplier] of [run]: the start-up factor of every step, from the
    status series.  [cluster_status[0]] needs a non-empty series. *)
Definition startup_time : Q := 600.
Definition cluster_cycling (cluster_status : list Z) : result (list Z) :=
  match cluster_status with
  | [] => raise IndexError
  | s0 :: _ => ret (s0 :: Np.diff cluster_status)
  end.
Definition h2_multiplier (startup_ratio : Q) (cluster_cycling : list Z) : list Q :=
  map (fun c => if (c >? 0)%Z then startup_ratio else 1) cluster_cycling.

(** [power_per_stack] of [run]: [np.where] takes the quotient only where
    the divisor is positive. *)
Definition power_per_stack (input_power_kw n_stacks_op : list Q) : list Q :=
  Np.map2 (fun p n => if Np.gtb n 0 then p / n else 0) input_power_kw n_stacks_op.

(** What the two branches of [if self.include_deg_penalty] leave behind. *)
Record branch_state : Type := {
  b_V_init : list Q;
  b_stack_current : list Q;
  b_V_cell : list Q;
  b_deg_signal : list Q;
  b_nsr_life : npfloat;
  b_time_between_replacements : npfloat;
  b_off_cycle_cnt : option (list Z)
}.

Definition run_branch (self : PEM_H2_Clusters) (cluster_status : list Z)
    (power_per_stack stack_current : list Q) : result branch_state :=
  (* [V_init] is a local of [run]; nothing has assigned it yet *)
  let V_init_local : option (list Q) := None in
  if include_deg_penalty self then
    (let V_init := map (cell_design T_C) stack_current in
     '(V_cell_deg, deg_signal, cnt) <- full_degradation self cluster_status V_init ;;
     '(nsr_life, tbr) <- calc_stack_replacement_info self deg_signal ;;
     let stack_current :=
       find_equivalent_input_power_4_deg self cluster_status
                                         power_per_stack V_init deg_signal in
     let V_cell_equiv := map (cell_design T_C) stack_current in
     let V_cell := Np.map2 Qplus V_cell_equiv deg_signal in
     ret {| b_V_init := V_init; b_stack_current := stack_current;
            b_V_cell := V_cell; b_deg_signal := deg_signal;
            b_nsr_life := nsr_life; b_time_between_replacements := tbr;
            b_off_cycle_cnt := cnt |})%result
  else
    (V_init <- read_local V_init_local ;;
     '(V_ignore, deg_signal, cnt) <- full_degradation self cluster_status V_init ;;
     let V_cell := map (cell_design T_C) stack_current in
     '(nsr_life, tbr) <- calc_stack_replacement_info self deg_signal ;;
     ret {| b_V_init := V_init; b_stack_current := stack_current;
            b_V_cell := V_cell; b_deg_signal := deg_signal;
            b_nsr_life := nsr_life; b_time_between_replacements := tbr;
            b_off_cycle_cnt := cnt |})%result.

(** [run]. *)
Definition run (self : PEM_H2_Clusters) (input_external_power_kw : list Q)
  : result (h2_results * h2_results_aggregates) :=
  if Qeq_bool (dt self) 0 then raise ZeroDivisionError else
  let startup_ratio := 1 - (startup_time / dt self) in
  let input_power_kw := fst (external_power_supply self input_external_power_kw) in
  let cluster_status := system_design input_power_kw (max_stacks self) in
  (cycling <- cluster_cycling cluster_status ;;
   let h2_multiplier := h2_multiplier startup_ratio cycling in
   let n_stacks_op := map (fun s => max_stacks self * inject_Z s) cluster_status in
   let power_per_stack := power_per_stack input_power_kw n_stacks_op in
   let stack_current :=
     map (fun p => calc_current p T_C (curve_coeff self)) power_per_stack in
   b <- run_branch self cluster_status power_per_stack stack_current ;;
   let stack_current := b_stack_current b in
   let V_cell := b_V_cell b in
   let stack_power_consumed :=
     Np.map2 (fun i v => (i * v * N_cells) / 1000) stack_current V_cell in
   let system_power_consumed := Np.map2 Qmult n_stacks_op stack_power_consumed in
   let h2_kg_hr_system_init :=
     Np.map2 (h2_production_rate self) stack_current n_stacks_op in
   let '(p_consumed_max, rated_h2_hr) := rated_h2_prod self in
   let h2_kg_hr_system := Np.map2 Qmult h2_kg_hr_system_init h2_multiplier in
   let h20_gal_used_system := water_supply h2_kg_hr_system in
   let pem_cf :=
     np_divide (Np.sum h2_kg_hr_system)
               (rated_h2_hr * inject_Z (Z.of_nat (length input_power_kw))
                * max_stacks self) in
   let efficiency := system_efficiency self n_stacks_op input_power_kw stack_current in
   cnt <- read_attr (b_off_cycle_cnt b) ;;
   final_deg <- last_elem (b_deg_signal b) ;;
   ret ({| Input_Power_kWh := input_external_power_kw;
           hydrogen_production_no_startup_time := h2_kg_hr_system_init;
           hydrogen_hourly_production := h2_kg_hr_system;
           water_hourly_usage_gal := h20_gal_used_system;
           water_hourly_usage_kg := map (fun w => w * 3.79) h20_gal_used_system;
           electrolyzer_total_efficiency_perc := efficiency;
           kwh_per_kgH2 := Np.map2 np_divide input_power_kw h2_kg_hr_system;
           Power_Consumed_kWh := system_power_consumed;
           Stacks_on := n_stacks_op;
           Power_Per_Stack_kW := power_per_stack;
           Stack_Current_A := stack_current;
           V_cell_No_Deg := b_V_init b;
           V_cell_With_Deg := V_cell;
           System_Degradation_V := b_deg_signal b |},
        {| Stack_Rated_Power_Consumed_kWh := p_consumed_max;
           Stack_Rated_H2_Production_kg_hr := rated_h2_hr;
           Avg_hrs_until_Replacement_Per_Stack := b_time_between_replacements b;
           Number_of_Lifetime_Cluster_Replacements := b_nsr_life b;
           PEM_Capacity_Factor := pem_cf;
           Total_H2_Production_kg := Np.sum h2_kg_hr_system;
           Total_Input_Power_kWh := Np.sum input_external_power_kw;
           Total_kWh_per_kg :=
             np_divide (Np.sum input_external_power_kw) (Np.sum h2_kg_hr_system);
           Total_Uptime_sec :=
             Np.sum (map (fun s => inject_Z s * dt self) cluster_status);
           Total_Off_Cycles := fold_left Z.add cnt 0%Z;
           Final_Degradation_V := final_deg;
           IV_curve_coeff := curve_coeff self |}))%result.

End Libraries.

(** [PEM_H2_Clusters(cluster_size_mw, plant_life, ...)]: [__init__] switches
    the three degradation mechanisms on. *)
Definition new_engine (cluster_size_mw plant_life : Q)
    (include_degradation_penalty : bool) (dt : Q)
    (coeff : curve_coefficients) (d_eol : Q) : PEM_H2_Clusters :=
  {| max_stacks := cluster_size_mw;
     plant_life_years := plant_life;
     include_deg_penalty := include_degradation_penalty;
     use_onoff_deg := true;
     use_uptime_deg := true;
     use_fatigue_deg := true;
     dt := dt;
     curve_coeff := coeff;
     d_eol := d_eol |}.

(** ** Sample data

    A one-stack (1 MW) cluster with hourly steps and the literature value of
    [d_eol]; its curve is the straight line [current = 4 * power], close to
    the fitted one (1000 kW at about 3840 A). *)
Definition line_coeff : curve_coefficients :=
  {| p1 := 0; p2 := 0; p3 := 4; p4 := 0; p5 := 0; p6 := 1 |}.
Definition one_stack : PEM_H2_Clusters :=
  new_engine 1 30 true 3600 line_coeff 0.7212.
Definition one_stack_no_penalty : PEM_H2_Clusters :=
  new_engine 1 30 false 3600 line_coeff 0.7212.

(** The sample cluster with the cycling mechanism alone: [use_uptime_deg]
    and [use_fatigue_deg] set to [False] after construction. *)
Definition cycling_only : PEM_H2_Clusters :=
  {| max_stacks := 1;
     plant_life_years := 30;
     include_deg_penalty := true;
     use_onoff_deg := true;
     use_uptime_deg := false;
     use_fatigue_deg := false;
     dt := 3600;
     curve_coeff := line_coeff;
     d_eol := 0.7212 |}.

(** The sample cluster run in steps of five minutes. *)
Definition five_minute_steps : PEM_H2_Clusters :=
  new_engine 1 30 true 300 line_coeff 0.7212.

(** A stand-in for the cycle count: every step between two neighbouring
    samples is a half cycle of that range. *)
Fixpoint half_cycles_from (prev : Q) (l : list Q) : list (Q * Q) :=
  match l with
  | [] => []
  | x :: l' => (Qabs (x - prev), 0.5) :: half_cycles_from x l'
  end.
Definition half_cycles (series : list Q) : list (Q * Q) :=
  match series with
  | [] => []
  | x :: l' => half_cycles_from x l'
  end.

(** First-order stand-ins for the elementary functions, used only to run the
    model on the sample data. *)
Definition lin_log (x : Q) : Q := x - 1.
Definition lin_sqrt (x : Q) : Q := (1 + x) / 2.
Definition lin_exp (x : Q) : Q := 1 + x.
Definition lin_arcsinh (x : Q) : Q := x / (1 + Qabs x).
Definition lin_power (x y : Q) : Q := 1 + y * (x - 1).

(** ** Notions the properties are stated with *)

(** The status goes from 1 to 0 between step [t-1] and step [t]. *)
Definition turns_off (cluster_status : list Z) (t : nat) : bool :=
  match t with
  | O => false
  | S t' => (nth t' cluster_status 0 =? 1)%Z && (nth t cluster_status 0 =? 0)%Z
  end.

(** The status goes from 0 to 1 between step [t-1] and step [t]. *)
Definition turns_on (cluster_status : list Z) (t : nat) : bool :=
  match t with
  | O => false
  | S t' => (nth t' cluster_status 0 =? 0)%Z && (nth t cluster_status 0 =? 1)%Z
  end.

(** The same, with the cluster taken to be off before the first step. *)
Definition starts_up (cluster_status : list Z) (t : nat) : bool :=
  match t with
  | O => (nth 0 cluster_status 0 =? 1)%Z
  | S _ => turns_on cluster_status t
  end.

(** The number of steps up to and including [t] at which the status turns off. *)
Definition off_transitions_upto (cluster_status : list Z) (t : nat) : Z :=
  Z.of_nat (length (filter (turns_off cluster_status) (seq 0 (S t)))).

(** The non-zero samples of the window [lo:hi] of a signal. *)
Definition nonzero_samples_in (voltage_signal : list Q) (lo hi : nat) : list Q :=
  filter (fun v => negb (Qeq_bool v 0)) (Np.slice voltage_signal lo hi).

(** The cycle-weighted sum the loop of [approx_fatigue_degradation] adds for
    window [i], and the running total after the first [k] windows. *)
Definition window_rf_sum (count_cycles : list Q -> list (Q * Q))
    (voltage_signal : list Q) (i : nat) : Q :=
  rf_sum (count_cycles
            (voltage_signal_temp voltage_signal (i * dt_fatigue_calc_hrs)
                                 (S i * dt_fatigue_calc_hrs))).
Definition rf_track_after (count_cycles : list Q -> list (Q * Q))
    (voltage_signal : list Q) (k : nat) : Q :=
  fold_left (fun acc i => acc + window_rf_sum count_cycles voltage_signal i)
            (seq 0 k) 0.

(** A series does not decrease from one step to the next. *)
Definition non_decreasing (l : list Q) : Prop :=
  forall t, (S t < length l)%nat -> nth t l 0 <= nth (S t) l 0.

(** The number of steps at which the cluster is on. *)
Definition on_steps (cluster_status : list Z) : nat :=
  length (filter (fun s => (s =? 1)%Z) cluster_status).

(** All entries of a series are finite quotients. *)
Definition all_finite (l : list npfloat) : Prop :=
  Forall (fun x => is_finite x = true) l.

(** * Properties *)

(** ** Comparisons and arrays *)

Lemma ltb_true_iff (x y : Q) : Np.ltb x y = true <-> x < y.
Proof.
  unfold Np.ltb. rewrite Qlt_alt. destruct (x ?= y); intuition congruence.
Qed.

Lemma ltb_false_iff (x y : Q) : Np.ltb x y = false <-> y <= x.
Proof.
  rewrite <- not_true_iff_false, ltb_true_iff. split.
  - apply Qnot_lt_le.
  - apply Qle_not_lt.
Qed.

Lemma gtb_true_iff (x y : Q) : Np.gtb x y = true <-> y < x.
Proof. apply ltb_true_iff. Qed.

Lemma gtb_false_iff (x y : Q) : Np.gtb x y = false <-> x <= y.
Proof. apply ltb_false_iff. Qed.

Lemma geb_true_iff (x y : Q) : Np.geb x y = true <-> y <= x.
Proof. unfold Np.geb. rewrite negb_true_iff. apply ltb_false_iff. Qed.

Lemma map2_length {A B C} (f : A -> B -> C) (l1 : list A) (l2 : list B) :
  length (Np.map2 f l1 l2) = Nat.min (length l1) (length l2).
Proof.
  revert l2. induction l1 as [|x l1 IH]; intros [|y l2]; simpl; auto.
Qed.

Lemma map2_nth {A B C} (f : A -> B -> C) (l1 : list A) (l2 : list B)
    (t : nat) (d1 : A) (d2 : B) (d : C) :
  (t < length l1)%nat -> (t < length l2)%nat ->
  nth t (Np.map2 f l1 l2) d = f (nth t l1 d1) (nth t l2 d2).
Proof.
  revert l2 t. induction l1 as [|x l1 IH]; intros [|y l2] [|t]; simpl;
    intros H1 H2; try lia; auto.
  apply IH; lia.
Qed.

Lemma map_nth_in {A B} (f : A -> B) (l : list A) (t : nat) (d : A) (d' : B) :
  (t < length l)%nat -> nth t (map f l) d' = f (nth t l d).
Proof.
  intros H. rewrite (nth_indep _ d' (f d)) by (rewrite length_map; exact H).
  apply map_nth.
Qed.

(** ** Dispatch policy *)

Lemma system_design_length (input_power_kw : list Q) (c : Q) :
  length (system_design input_power_kw c) = length input_power_kw.
Proof. apply length_map. Qed.

(** What [system_design] computes: the status is 0 below [0.1 * cluster_size_mw]
    and 1 from there on. *)
Lemma system_design_nth (input_power_kw : list Q) (c : Q) (t : nat) :
  (t < length input_power_kw)%nat ->
  nth t (system_design input_power_kw c) 0%Z
  = if Np.ltb (nth t input_power_kw 0) (0.1 * c) then 0%Z else 1%Z.
Proof.
  intros H. unfold system_design. now rewrite (map_nth_in _ _ _ 0).
Qed.

Lemma system_design_binary (input_power_kw : list Q) (c : Q) :
  Forall (fun s => s = 0%Z \/ s = 1%Z) (system_design input_power_kw c).
Proof.
  unfold system_design. apply Forall_map, Forall_forall. intros p _.
  destruct (Np.ltb p _); auto.
Qed.

Lemma external_power_supply_length (self : PEM_H2_Clusters) (input : list Q) :
  length (fst (external_power_supply self input)) = length input.
Proof. apply length_map. Qed.

Lemma clamp_above_is_min (cap p : Q) :
  (if Np.gtb p cap then cap else p) = Qmin p cap.
Proof.
  unfold Np.gtb, Np.ltb, Qmin, GenericMinMax.gmin.
  rewrite <- (Qcompare_antisym p cap). destruct (p ?= cap); reflexivity.
Qed.

Lemma excess_is_max (cap p : Q) :
  (if Np.gtb p cap then p - cap else 0) == Qmax (p - cap) 0.
Proof.
  destruct (Np.gtb p cap) eqn:E.
  - apply gtb_true_iff in E. rewrite Q.max_l; lra.
  - apply gtb_false_iff in E. rewrite Q.max_r; lra.
Qed.

(** C5, as stated, fails: the claim has every value clamped to
    [[0, max_stacks * stack_rating]], and a one-stack cluster hands -5 kW on
    as -5 kW, which is below that interval. *)
Lemma external_power_supply_keeps_negative_power :
  fst (external_power_supply one_stack [-5]) = [-5]
  /\ ~ (0 <= nth 0 (fst (external_power_supply one_stack [-5])) 0).
Proof.
  split.
  - reflexivity.
  - simpl. lra.
Qed.

(** C5, amended: [external_power_supply] clamps every value from above only,
    to [max_stacks * stack_rating] (a value at or below the cap, a negative
    one included, is handed on unchanged), and the curtailed power of a step
    is the excess of the raw input over the cap, zero when there is none. *)
Theorem external_power_supply_caps_from_above
    (self : PEM_H2_Clusters) (input_external_power_kw : list Q) :
  let cap := max_stacks self * stack_rating_kW in
  fst (external_power_supply self input_external_power_kw)
  = map (fun p => Qmin p cap) input_external_power_kw
  /\ Forall2 (fun c p => c == Qmax (p - cap) 0
                         /\ (p <= cap -> c = 0)
                         /\ (cap < p -> c = p - cap))
             (snd (external_power_supply self input_external_power_kw))
             input_external_power_kw.
Proof.
  intros cap. unfold external_power_supply. simpl. fold cap. split.
  - apply map_ext. intros p. apply clamp_above_is_min.
  - induction input_external_power_kw as [|p l IH]; simpl; constructor; auto.
    split; [apply excess_is_max|]. split; intros H.
    + apply gtb_false_iff in H. now rewrite H.
    + apply gtb_true_iff in H. now rewrite H.
Qed.

(** ** Cycling degradation *)

Lemma diff_from_length (prev : Z) (l : list Z) :
  length (Np.diff_from prev l) = length l.
Proof. revert prev. induction l as [|x l IH]; intros prev; simpl; auto. Qed.

Lemma diff_from_nth (l : list Z) (prev : Z) (t : nat) :
  (t < length l)%nat ->
  nth t (Np.diff_from prev l) 0%Z = (nth t l 0 - nth t (prev :: l) 0)%Z.
Proof.
  revert prev t. induction l as [|x l IH]; intros prev [|t] H; simpl in *;
    try lia.
  rewrite IH by lia. reflexivity.
Qed.

Lemma diff_nth (l : list Z) (t : nat) :
  (S t < length l)%nat ->
  nth t (Np.diff l) 0%Z = (nth (S t) l 0 - nth t l 0)%Z.
Proof.
  destruct l as [|x l]; simpl; intros H; [lia|].
  rewrite diff_from_nth by lia. reflexivity.
Qed.

Lemma diff_length (l : list Z) : length (Np.diff l) = Nat.pred (length l).
Proof. destruct l; simpl; auto using diff_from_length. Qed.

Lemma off_cycle_cnt_length (cluster_status : list Z) :
  cluster_status <> [] ->
  length (off_cycle_cnt cluster_status) = length cluster_status.
Proof.
  intros H. unfold off_cycle_cnt. simpl. rewrite length_map, diff_length.
  destruct cluster_status; simpl; congruence.
Qed.

Lemma binary_nth (l : list Z) (t : nat) :
  Forall (fun s => s = 0%Z \/ s = 1%Z) l -> (t < length l)%nat ->
  nth t l 0%Z = 0%Z \/ nth t l 0%Z = 1%Z.
Proof.
  intros Hb Ht. rewrite Forall_forall in Hb. apply Hb, nth_In, Ht.
Qed.

Lemma off_cycle_cnt_nth (cluster_status : list Z) (t : nat) :
  Forall (fun s => s = 0%Z \/ s = 1%Z) cluster_status ->
  (t < length cluster_status)%nat ->
  nth t (off_cycle_cnt cluster_status) 0%Z
  = if turns_off cluster_status t then 1%Z else 0%Z.
Proof.
  intros Hb Ht. unfold off_cycle_cnt. destruct t as [|t]; [reflexivity|].
  cbn [nth turns_off].
  rewrite (map_nth_in _ _ _ 0%Z) by (rewrite diff_length; lia).
  rewrite diff_nth by lia.
  destruct (binary_nth _ t Hb ltac:(lia)) as [E0|E0],
           (binary_nth _ (S t) Hb Ht) as [E1|E1];
    rewrite E0, E1; reflexivity.
Qed.

Lemma off_cycle_cnt_nonneg (cluster_status : list Z) :
  Forall (fun c => (0 <= c)%Z) (off_cycle_cnt cluster_status).
Proof.
  unfold off_cycle_cnt. constructor; [lia|].
  apply Forall_map, Forall_forall. intros c _.
  destruct (c <? 0)%Z eqn:E; [apply Z.ltb_lt in E|]; lia.
Qed.

Lemma cumsum_from_length (acc : Q) (l : list Q) :
  length (Np.cumsum_from acc l) = length l.
Proof. revert acc. induction l as [|x l IH]; intros acc; simpl; auto. Qed.

Lemma cumsum_length (l : list Q) : length (Np.cumsum l) = length l.
Proof. apply cumsum_from_length. Qed.

Lemma cumsum_from_S (l : list Q) (acc : Q) (t : nat) :
  (S t < length l)%nat ->
  nth (S t) (Np.cumsum_from acc l) 0
  = nth t (Np.cumsum_from acc l) 0 + nth (S t) l 0.
Proof.
  revert acc t. induction l as [|x l IH]; intros acc t H; simpl in *; [lia|].
  destruct l as [|y l]; simpl in *; [lia|].
  destruct t as [|t]; [reflexivity|].
  apply (IH (acc + x) t). simpl. lia.
Qed.

Lemma cumsum_S (l : list Q) (t : nat) :
  (S t < length l)%nat ->
  nth (S t) (Np.cumsum l) 0 = nth t (Np.cumsum l) 0 + nth (S t) l 0.
Proof. apply cumsum_from_S. Qed.

Lemma cumsum_0 (l : list Q) :
  (0 < length l)%nat -> nth 0 (Np.cumsum l) 0 = 0 + nth 0 l 0.
Proof. destruct l; simpl; [lia|reflexivity]. Qed.

Lemma off_transitions_upto_S (cluster_status : list Z) (t : nat) :
  off_transitions_upto cluster_status (S t)
  = (off_transitions_upto cluster_status t
     + (if turns_off cluster_status (S t) then 1 else 0))%Z.
Proof.
  unfold off_transitions_upto. rewrite (seq_S (S t)), filter_app, length_app.
  cbn [filter Nat.add]. destruct (turns_off cluster_status (S t)); simpl length; lia.
Qed.

Lemma turns_on_not_off (cluster_status : list Z) (t : nat) :
  turns_on cluster_status t = true -> turns_off cluster_status t = false.
Proof.
  destruct t as [|t]; simpl; [discriminate|].
  rewrite andb_true_iff, !Z.eqb_eq. intros [H0 H1]. rewrite H0. reflexivity.
Qed.

(** C6: on a 0/1 status series the cycling increment of a step is
    [rate_cycle = 1.47821515e-04] times the number (one or none) of 1-to-0
    transitions that end at the step, so the cumulative cycling degradation
    is [rate_cycle] times the number of such transitions so far, and a 0-to-1
    transition adds nothing. *)
Theorem cycling_degradation_counts_off_transitions
    (cluster_status : list Z) (t : nat) :
  Forall (fun s => s = 0%Z \/ s = 1%Z) cluster_status ->
  (t < length cluster_status)%nat ->
  onoff_deg_rate = 1.47821515e-04
  /\ nth t (calc_onoff_degradation cluster_status) 0
     = onoff_deg_rate * inject_Z (if turns_off cluster_status t then 1 else 0)
  /\ nth t (Np.cumsum (calc_onoff_degradation cluster_status)) 0
     == onoff_deg_rate * inject_Z (off_transitions_upto cluster_status t)
  /\ (turns_on cluster_status t = true ->
      nth t (calc_onoff_degradation cluster_status) 0 == 0).
Proof.
  intros Hb Ht.
  assert (Hne : cluster_status <> []) by (destruct cluster_status; simpl in *; [lia|congruence]).
  assert (Hinc : forall u, (u < length cluster_status)%nat ->
            nth u (calc_onoff_degradation cluster_status) 0
            = onoff_deg_rate * inject_Z (if turns_off cluster_status u then 1 else 0)).
  { intros u Hu. unfold calc_onoff_degradation.
    rewrite (map_nth_in _ _ _ 0%Z) by (rewrite off_cycle_cnt_length; auto).
    now rewrite off_cycle_cnt_nth. }
  assert (Hlen : length (calc_onoff_degradation cluster_status) = length cluster_status).
  { unfold calc_onoff_degradation. rewrite length_map. now apply off_cycle_cnt_length. }
  split; [reflexivity|]. split; [auto|]. split.
  - clear Hb. induction t as [|t IH].
    + rewrite cumsum_0 by lia. rewrite Hinc by lia.
      change (off_transitions_upto cluster_status 0) with 0%Z.
      change (turns_off cluster_status 0) with false. cbv iota. ring.
    + rewrite cumsum_S by lia. rewrite IH by lia. rewrite Hinc by lia.
      rewrite off_transitions_upto_S, inject_Z_plus. ring.
  - intros Hon. rewrite Hinc by lia. rewrite (turns_on_not_off _ _ Hon).
    change (inject_Z 0) with 0. ring.
Qed.

(** A witness for C6: the status goes on, off, on, off; the fourth step is
    the second off-transition. *)
Lemma cycling_degradation_counts_off_transitions_witness :
  onoff_deg_rate = 1.47821515e-04
  /\ nth 3 (calc_onoff_degradation [1; 0; 1; 0]%Z) 0
     = onoff_deg_rate * inject_Z (if turns_off [1; 0; 1; 0]%Z 3 then 1 else 0)
  /\ nth 3 (Np.cumsum (calc_onoff_degradation [1; 0; 1; 0]%Z)) 0
     == onoff_deg_rate * inject_Z (off_transitions_upto [1; 0; 1; 0]%Z 3)
  /\ (turns_on [1; 0; 1; 0]%Z 3 = true ->
      nth 3 (calc_onoff_degradation [1; 0; 1; 0]%Z) 0 == 0).
Proof.
  apply (cycling_degradation_counts_off_transitions [1; 0; 1; 0]%Z 3).
  - repeat (apply Forall_cons; [auto|]). apply Forall_nil.
  - simpl. lia.
Defined.

(** ** Faradaic efficiency *)

Lemma ratio_to_shifted_square (a : Q) :
  0 <= a -> 0 <= a / (250 + a) < 1 /\ (a / (250 + a) == 0 <-> a == 0).
Proof.
  intros Ha.
  assert (Hd : 0 < 250 + a) by lra.
  assert (Hi : 0 < / (250 + a)) by now apply Qinv_lt_0_compat.
  assert (H1 : (250 + a) * / (250 + a) == 1) by (apply Qmult_inv_r; lra).
  unfold Qdiv. set (k := / (250 + a)) in *.
  split; [split|split].
  - apply Qmult_le_0_compat; lra.
  - nra.
  - intros H. apply Qmult_integral in H. lra.
  - intros H. rewrite H. ring.
Qed.

Lemma current_density_square (stack_current : Q) :
  0 <= (stack_current * 1000 / cell_active_area) ^ 2
  /\ ((stack_current * 1000 / cell_active_area) ^ 2 == 0 <-> stack_current == 0).
Proof.
  unfold cell_active_area.
  set (j := stack_current * 1000 / 1920).
  assert (Hj : j == stack_current * (25 # 48)) by (unfold j; field).
  assert (Hsq : j ^ 2 == j * j) by (simpl; ring).
  rewrite Hsq. split; [nra|]. split; intros H.
  - apply Qmult_integral in H. assert (j == 0) by tauto. lra.
  - rewrite Hj, H. ring.
Qed.

(** C9: with [j = 1000 * current / area], [f_1 = 250] and [f_2 = 0.996], the
    Faradaic efficiency [(j^2 / (f_1 + j^2)) * f_2] of a strictly positive
    current lies strictly between 0 and 1, and the efficiency is 0 exactly
    when the current is 0. *)
Theorem faradaic_efficiency_in_unit_interval (stack_current : Q) :
  let j := 1000 * stack_current / cell_active_area in
  faradaic_efficiency stack_current == (j ^ 2 / (250 + j ^ 2)) * 0.996
  /\ (0 < stack_current ->
      0 < faradaic_efficiency stack_current
      /\ faradaic_efficiency stack_current < 1)
  /\ (faradaic_efficiency stack_current == 0 <-> stack_current == 0).
Proof.
  intros j.
  assert (Ej : j == stack_current * 1000 / cell_active_area)
    by (unfold j, cell_active_area; field).
  unfold faradaic_efficiency.
  destruct (current_density_square stack_current) as [Ha Hz].
  set (a := (stack_current * 1000 / cell_active_area) ^ 2) in *.
  destruct (ratio_to_shifted_square a Ha) as [[Hr0 Hr1] Hrz].
  split; [|split].
  - assert (Ea : j ^ 2 == a) by (unfold a; now rewrite Ej).
    now rewrite Ea.
  - intros Hpos.
    assert (Hnz : ~ a / (250 + a) == 0) by (rewrite Hrz, Hz; lra).
    split; lra.
  - rewrite <- Hz, <- Hrz. split; intros H; lra.
Qed.

(** ** Fatigue degradation *)

Lemma arange_length (stop step : nat) :
  length (Np.arange stop step) = ((stop + step - 1) / step)%nat.
Proof. unfold Np.arange. now rewrite length_map, length_seq. Qed.

Lemma arange_nth (stop step i : nat) :
  (i < (stop + step - 1) / step)%nat ->
  nth i (Np.arange stop step) 0%nat = (i * step)%nat.
Proof.
  intros H. unfold Np.arange.
  rewrite (map_nth_in _ _ _ 0%nat) by now rewrite length_seq.
  now rewrite seq_nth.
Qed.

(** The number of windows the loop of [approx_fatigue_degradation] visits. *)
Lemma t_calc_windows (n : nat) :
  (length (Np.arange (n + dt_fatigue_calc_hrs) dt_fatigue_calc_hrs) - 1
   = (n + 167) / 168)%nat.
Proof.
  rewrite arange_length. change dt_fatigue_calc_hrs with 168%nat.
  replace (n + 168 + 168 - 1)%nat with (n + 167 + 1 * 168)%nat by lia.
  rewrite Nat.div_add by lia. lia.
Qed.

Lemma t_calc_nth (n i : nat) :
  (i <= (n + 167) / 168)%nat ->
  nth i (Np.arange (n + dt_fatigue_calc_hrs) dt_fatigue_calc_hrs) 0%nat
  = (i * dt_fatigue_calc_hrs)%nat.
Proof.
  intros H. apply arange_nth. change dt_fatigue_calc_hrs with 168%nat.
  replace (n + 168 + 168 - 1)%nat with (n + 167 + 1 * 168)%nat by lia.
  rewrite Nat.div_add by lia. lia.
Qed.

Lemma fill_from_length (l : list Q) (i lo hi : nat) (c : Q) :
  length (Np.fill_from i l lo hi c) = length l.
Proof. revert i. induction l as [|x l IH]; intros i; simpl; auto. Qed.

Lemma fill_from_nth (l : list Q) (i lo hi j : nat) (c : Q) :
  (j < length l)%nat ->
  nth j (Np.fill_from i l lo hi c) 0
  = if (lo <=? i + j)%nat && (i + j <? hi)%nat then c else nth j l 0.
Proof.
  revert i j. induction l as [|x l IH]; intros i [|j] H; simpl in *; try lia.
  - now rewrite Nat.add_0_r.
  - rewrite IH by lia. now rewrite Nat.add_succ_r.
Qed.

Lemma fill_nth (l : list Q) (lo hi j : nat) (c : Q) :
  (j < length l)%nat ->
  nth j (Np.fill l lo hi c) 0
  = if (lo <=? j)%nat && (j <? hi)%nat then c else nth j l 0.
Proof. intros H. unfold Np.fill. now rewrite fill_from_nth. Qed.

Lemma zeros_nth (n j : nat) : nth j (Np.zeros n) 0 = 0.
Proof.
  unfold Np.zeros. destruct (Nat.lt_ge_cases j n) as [H|H].
  - now apply nth_repeat_lt.
  - apply nth_overflow. now rewrite repeat_length.
Qed.

Section Fatigue.

Variable count_cycles : list Q -> list (Q * Q).

Lemma rf_track_after_S (voltage_signal : list Q) (k : nat) :
  rf_track_after count_cycles voltage_signal (S k)
  = rf_track_after count_cycles voltage_signal k
    + window_rf_sum count_cycles voltage_signal k.
Proof.
  unfold rf_track_after. now rewrite seq_S, fold_left_app.
Qed.

(** The state of the loop after its first [k] windows. *)
Lemma fatigue_loop_prefix (voltage_signal : list Q) (k : nat) :
  let n := length voltage_signal in
  let t_calc := Np.arange (n + dt_fatigue_calc_hrs) dt_fatigue_calc_hrs in
  let st := fold_left (fatigue_step count_cycles voltage_signal t_calc)
                      (seq 0 k) (0, Np.zeros n) in
  (k <= (n + 167) / 168)%nat ->
  fst st = rf_track_after count_cycles voltage_signal k
  /\ length (snd st) = n
  /\ forall j, (j < n)%nat ->
       nth j (snd st) 0
       = if (j <? k * 168)%nat
         then rf_track_after count_cycles voltage_signal (S (j / 168))
              * rate_fatigue
         else 0.
Proof.
  intros n t_calc. induction k as [|k IH]; intros st Hk.
  - subst st. simpl. split; [reflexivity|]. split.
    + apply repeat_length.
    + intros j _. apply zeros_nth.
  - subst st. rewrite seq_S, fold_left_app.
    destruct IH as (IH1 & IH2 & IH3); [lia|].
    set (st := fold_left _ (seq 0 k) _) in *.
    cbn [fold_left Nat.add]. unfold fatigue_step. cbn [fst snd].
    subst t_calc n. rewrite !t_calc_nth by lia.
    fold (window_rf_sum count_cycles voltage_signal k).
    rewrite IH1, <- rf_track_after_S.
    split; [reflexivity|]. split.
    + unfold Np.fill. now rewrite fill_from_length.
    + intros j Hj. rewrite fill_nth by lia. rewrite IH3 by lia.
      change dt_fatigue_calc_hrs with 168%nat.
      destruct (Nat.leb_spec (k * 168) j), (Nat.ltb_spec j (S k * 168)),
               (Nat.ltb_spec j (k * 168)); cbn [andb]; try lia; try reflexivity.
      replace (j / 168)%nat with k; [reflexivity|].
      apply (Nat.div_unique j 168 k (j - k * 168)); lia.
Qed.

(** What the loop leaves in [V_fatigue_ts]: on window [j / 168] the running
    total of the window sums up to and including that window, times
    [rate_fatigue]. *)
Lemma fatigue_loop_nth (voltage_signal : list Q) (j : nat) :
  (j < length voltage_signal)%nat ->
  nth j (snd (fatigue_loop count_cycles voltage_signal)) 0
  = rf_track_after count_cycles voltage_signal (S (j / 168)) * rate_fatigue.
Proof.
  intros Hj. unfold fatigue_loop. rewrite t_calc_windows.
  destruct (fatigue_loop_prefix voltage_signal
              ((length voltage_signal + 167) / 168) (Nat.le_refl _))
    as (_ & _ & H).
  rewrite H by exact Hj.
  assert (Hlt : (j < (length voltage_signal + 167) / 168 * 168)%nat).
  { pose proof (Nat.div_mod_eq (length voltage_signal + 167) 168).
    pose proof (Nat.mod_upper_bound (length voltage_signal + 167) 168). lia. }
  apply Nat.ltb_lt in Hlt. now rewrite Hlt.
Qed.

Lemma fatigue_loop_length (voltage_signal : list Q) :
  length (snd (fatigue_loop count_cycles voltage_signal)) = length voltage_signal.
Proof.
  unfold fatigue_loop. rewrite t_calc_windows.
  now destruct (fatigue_loop_prefix voltage_signal
                  ((length voltage_signal + 167) / 168) (Nat.le_refl _))
    as (_ & H & _).
Qed.

End Fatigue.

(** ** The combined degradation signal *)

Lemma bind_inr {A B} (c : result A) (k : A -> result B) (y : B) :
  bind c k = inr y -> exists x, c = inr x /\ k x = inr y.
Proof. destruct c as [e|x]; simpl; [discriminate|]. eauto. Qed.

Lemma last_elem_inr {A} (l : list A) (x : A) :
  last_elem l = inr x -> l <> [].
Proof. destruct l; [discriminate|congruence]. Qed.

Lemma last_elem_nonempty {A} (l : list A) :
  l <> [] -> exists x, last_elem l = inr x.
Proof. destruct l; [congruence|]. unfold last_elem. simpl. eauto. Qed.

Lemma fold_plus_nonneg (l : list Q) (acc : Q) :
  0 <= acc -> Forall (fun x => 0 <= x) l -> acc <= fold_left Qplus l acc.
Proof.
  revert acc. induction l as [|x l IH]; intros acc Ha Hl; simpl; [lra|].
  inversion Hl as [|x' l' Hx Hl']; subst.
  assert (H : acc + x <= fold_left Qplus l (acc + x)) by (apply IH; [lra|exact Hl']).
  lra.
Qed.

Lemma sum_nonneg (l : list Q) : Forall (fun x => 0 <= x) l -> 0 <= Np.sum l.
Proof. intros H. unfold Np.sum. apply fold_plus_nonneg; [lra|exact H]. Qed.

Lemma non_decreasing_cumsum (l : list Q) :
  Forall (fun x => 0 <= x) l -> non_decreasing (Np.cumsum l).
Proof.
  intros H t Ht. rewrite cumsum_length in Ht. rewrite cumsum_S by exact Ht.
  rewrite Forall_forall in H.
  assert (0 <= nth (S t) l 0) by (apply H, nth_In, Ht). lra.
Qed.

Lemma non_decreasing_plus (a b : list Q) :
  non_decreasing a -> non_decreasing b -> non_decreasing (Np.map2 Qplus a b).
Proof.
  intros Ha Hb t Ht. rewrite map2_length in Ht.
  rewrite !(map2_nth _ _ _ _ 0 0) by lia.
  specialize (Ha t ltac:(lia)). specialize (Hb t ltac:(lia)). lra.
Qed.

Lemma non_decreasing_zeros (n : nat) : non_decreasing (Np.zeros n).
Proof. intros t _. rewrite !zeros_nth. lra. Qed.

Lemma zeros_nonneg (n : nat) : Forall (fun x => 0 <= x) (Np.zeros n).
Proof. apply Forall_forall. intros x H. apply repeat_spec in H. subst. lra. Qed.

Lemma calc_onoff_degradation_nonneg (cluster_status : list Z) :
  Forall (fun x => 0 <= x) (calc_onoff_degradation cluster_status).
Proof.
  unfold calc_onoff_degradation. apply Forall_map.
  eapply Forall_impl; [|apply off_cycle_cnt_nonneg].
  intros c Hc. simpl in Hc. unfold onoff_deg_rate.
  assert (0 <= inject_Z c) by (change 0 with (inject_Z 0); now rewrite <- Zle_Qle).
  apply Qmult_le_0_compat; [discriminate|assumption].
Qed.

(** The uptime increments [dt * rate * (v * s) * s] of a non-negative voltage. *)
Lemma uptime_increments_nonneg (self : PEM_H2_Clusters)
    (cluster_status : list Z) (voltage_signal : list Q) :
  0 <= dt self ->
  Forall (fun v => 0 <= v) voltage_signal ->
  Forall (fun x => 0 <= x)
    (Np.map2 (fun v s => dt self * steady_deg_rate * v * inject_Z s)
       (Np.map2 (fun v s => v * inject_Z s) voltage_signal cluster_status)
       cluster_status).
Proof.
  intros Hdt Hv. revert cluster_status.
  induction Hv as [|v l Hv0 Hl IH]; intros [|s cs]; simpl; constructor; auto.
  assert (Hr : 0 <= steady_deg_rate) by (unfold steady_deg_rate; discriminate).
  assert (Hs : 0 <= inject_Z s * inject_Z s) by nra.
  assert (Hd : 0 <= dt self * steady_deg_rate) by now apply Qmult_le_0_compat.
  assert (Hvs : 0 <= v * (inject_Z s * inject_Z s)) by now apply Qmult_le_0_compat.
  setoid_replace (dt self * steady_deg_rate * (v * inject_Z s) * inject_Z s)
    with (dt self * steady_deg_rate * (v * (inject_Z s * inject_Z s))) by ring.
  now apply Qmult_le_0_compat.
Qed.

Section Combined.

Variable count_cycles : list Q -> list (Q * Q).

(** The library's contract: ranges and counts are not negative. *)
Hypothesis count_cycles_nonneg :
  forall series,
    Forall (fun pair => 0 <= fst pair /\ 0 <= snd pair) (count_cycles series).

Lemma rf_sum_nonneg (series : list Q) : 0 <= rf_sum (count_cycles series).
Proof.
  unfold rf_sum. apply sum_nonneg, Forall_map.
  eapply Forall_impl; [|apply count_cycles_nonneg].
  intros pair [H1 H2]. now apply Qmult_le_0_compat.
Qed.

Lemma rf_track_after_mono (voltage_signal : list Q) (k k' : nat) :
  (k <= k')%nat ->
  rf_track_after count_cycles voltage_signal k
  <= rf_track_after count_cycles voltage_signal k'.
Proof.
  induction 1 as [|k' _ IH]; [lra|].
  rewrite rf_track_after_S.
  pose proof (rf_sum_nonneg
                (voltage_signal_temp voltage_signal (k' * dt_fatigue_calc_hrs)
                                     (S k' * dt_fatigue_calc_hrs))) as H.
  fold (window_rf_sum count_cycles voltage_signal k') in H. lra.
Qed.

Lemma non_decreasing_fatigue (voltage_signal : list Q) :
  non_decreasing (snd (fatigue_loop count_cycles voltage_signal)).
Proof.
  intros t Ht. rewrite fatigue_loop_length in Ht.
  rewrite !fatigue_loop_nth by lia.
  assert (Hk : (S (t / 168) <= S (S t / 168))%nat).
  { apply le_n_S, Nat.Div0.div_le_mono. lia. }
  apply Qmult_le_compat_r.
  - now apply rf_track_after_mono.
  - unfold rate_fatigue. discriminate.
Qed.

Lemma approx_fatigue_degradation_inr (voltage_signal V_fatigue : list Q) :
  approx_fatigue_degradation count_cycles voltage_signal = inr V_fatigue ->
  V_fatigue = snd (fatigue_loop count_cycles voltage_signal).
Proof.
  unfold approx_fatigue_degradation. intros H.
  apply bind_inr in H as (x & _ & H). now inversion H.
Qed.

(** C4: when [full_degradation] returns, the combined signal (cumulative
    uptime + cumulative cycling + windowed fatigue total) does not decrease
    from one step to the next, for a timestep [dt >= 0], a cell voltage
    signal without negative samples, and a cycle count whose ranges and
    counts are not negative. *)
Theorem full_degradation_non_decreasing (self : PEM_H2_Clusters)
    (cluster_status : list Z) (voltage_signal : list Q)
    (voltage_final deg_signal : list Q) (cnt : option (list Z)) :
  0 <= dt self ->
  Forall (fun v => 0 <= v) voltage_signal ->
  full_degradation count_cycles self cluster_status voltage_signal
  = inr (voltage_final, deg_signal, cnt) ->
  forall t, (1 <= t)%nat -> (t < length deg_signal)%nat ->
    nth t deg_signal 0 >= nth (t - 1) deg_signal 0.
Proof.
  intros Hdt Hv Hfd.
  assert (Hmono : non_decreasing deg_signal).
  { unfold full_degradation in Hfd.
    apply bind_inr in Hfd as (V_deg_uptime & Hup & Hfd).
    apply bind_inr in Hfd as (V_fatigue & Hfat & Hfd).
    inversion Hfd; subst; clear Hfd.
    repeat apply non_decreasing_plus.
    - apply non_decreasing_cumsum.
      destruct (use_uptime_deg self).
      + unfold calc_uptime_degradation in Hup.
        apply bind_inr in Hup as (x & _ & Hup). inversion Hup; subst.
        now apply uptime_increments_nonneg.
      + inversion Hup. apply zeros_nonneg.
    - apply non_decreasing_cumsum.
      destruct (use_onoff_deg self).
      + apply calc_onoff_degradation_nonneg.
      + apply zeros_nonneg.
    - destruct (use_fatigue_deg self).
      + apply approx_fatigue_degradation_inr in Hfat. subst.
        apply non_decreasing_fatigue.
      + inversion Hfat. apply non_decreasing_zeros. }
  intros t H1 Ht. destruct t as [|t]; [lia|].
  replace (S t - 1)%nat with t by lia. apply Qle_ge. now apply Hmono.
Qed.

End Combined.

Lemma half_cycles_nonneg (series : list Q) :
  Forall (fun pair => 0 <= fst pair /\ 0 <= snd pair) (half_cycles series).
Proof.
  destruct series as [|x l]; simpl; [constructor|].
  revert x. induction l as [|y l IH]; intros x; cbn [half_cycles_from];
    constructor; auto.
  cbn [fst snd]. split; [apply Qabs_nonneg|discriminate].
Qed.

(** A witness for C4: three hourly steps, the cluster off in the second. *)
Lemma full_degradation_non_decreasing_witness :
  exists voltage_final deg_signal cnt,
    full_degradation half_cycles one_stack [1; 0; 1]%Z [1.9; 1.8; 2]
    = inr (voltage_final, deg_signal, cnt)
    /\ nth 2 deg_signal 0 >= nth (2 - 1) deg_signal 0.
Proof.
  destruct (full_degradation half_cycles one_stack [1; 0; 1]%Z [1.9; 1.8; 2])
    as [e|[[voltage_final deg_signal] cnt]] eqn:E.
  - exfalso. vm_compute in E. discriminate.
  - exists voltage_final, deg_signal, cnt. split; [reflexivity|].
    apply (full_degradation_non_decreasing half_cycles half_cycles_nonneg
             one_stack [1; 0; 1]%Z [1.9; 1.8; 2] voltage_final deg_signal cnt).
    + discriminate.
    + repeat (apply Forall_cons; [discriminate|]). apply Forall_nil.
    + exact E.
    + lia.
    + pose proof E as E'. vm_compute in E'.
      injection E' as _ Hdeg _. rewrite <- Hdeg. simpl. lia.
Defined.

(** The fatigue series of [approx_fatigue_degradation] is a step function:
    constant on every window of 168 steps, at [rate_fatigue] times the running
    total of the window sums. *)
Lemma approx_fatigue_degradation_steps
    (count_cycles : list Q -> list (Q * Q)) (voltage_signal : list Q) :
  voltage_signal <> [] ->
  exists V_fatigue_ts,
    approx_fatigue_degradation count_cycles voltage_signal = inr V_fatigue_ts
    /\ length V_fatigue_ts = length voltage_signal
    /\ forall j, (j < length voltage_signal)%nat ->
         nth j V_fatigue_ts 0
         = rf_track_after count_cycles voltage_signal (S (j / 168)) * rate_fatigue.
Proof.
  intros Hne. exists (snd (fatigue_loop count_cycles voltage_signal)).
  split; [|split].
  - unfold approx_fatigue_degradation.
    destruct (last_elem_nonempty (snd (fatigue_loop count_cycles voltage_signal)))
      as [x Hx].
    + intros H. apply (f_equal (@length Q)) in H.
      rewrite fatigue_loop_length in H. destruct voltage_signal; simpl in *; congruence.
    + now rewrite Hx.
  - apply fatigue_loop_length.
  - intros j Hj. now apply fatigue_loop_nth.
Qed.

(** C2 (the code departs from the claim): a voltage signal of 171 hourly
    samples, 2 V, 2.5 V and 3 V in turn throughout the first week, then 3 V,
    0 V (cluster off) and 5 V.  The non-zero samples of the second window are
    3 V and 5 V; the samples the code hands to the cycle count for that
    window are [voltage_signal[0]] and [voltage_signal[2]], 2 V and 3 V,
    because the positions [np.nonzero] finds in the window are used as
    positions in the whole signal; the running total of the second window
    grows by the cycle count of 2 V and 3 V. *)
Theorem fatigue_window_samples_come_from_first_window :
  forall count_cycles : list Q -> list (Q * Q),
    let voltage_signal := concat (repeat [2; 2.5; 3] 56) ++ [3; 0; 5] in
    length voltage_signal = 171%nat
    /\ nonzero_samples_in voltage_signal 168 336 = [3; 5]
    /\ voltage_signal_temp voltage_signal 168 336 = [2; 3]
    /\ window_rf_sum count_cycles voltage_signal 1
       = rf_sum (count_cycles [2; 3]).
Proof.
  intros count_cycles voltage_signal.
  assert (H : voltage_signal_temp voltage_signal 168 336 = [2; 3])
    by (vm_compute; reflexivity).
  split; [reflexivity|]. split; [vm_compute; reflexivity|]. split; [exact H|].
  unfold window_rf_sum.
  change (1 * dt_fatigue_calc_hrs)%nat with 168%nat.
  change (2 * dt_fatigue_calc_hrs)%nat with 336%nat.
  now rewrite H.
Qed.

(** ** The simulation *)

Lemma zeros_length (n : nat) : length (Np.zeros n) = n.
Proof. apply repeat_length. Qed.

Lemma calc_onoff_degradation_length (cluster_status : list Z) :
  cluster_status <> [] ->
  length (calc_onoff_degradation cluster_status) = length cluster_status.
Proof.
  intros H. unfold calc_onoff_degradation. rewrite length_map.
  now apply off_cycle_cnt_length.
Qed.

Lemma cluster_cycling_inr (cluster_status cycling : list Z) :
  cluster_cycling cluster_status = inr cycling ->
  cluster_status <> []
  /\ cycling = nth 0 cluster_status 0%Z :: Np.diff cluster_status.
Proof.
  destruct cluster_status as [|s0 l]; [discriminate|].
  intros H. inversion H. split; [congruence|reflexivity].
Qed.

(** The start-up factor of a step, read off the status series. *)
Lemma h2_multiplier_nth (startup_ratio : Q) (cluster_status : list Z) (t : nat) :
  Forall (fun s => s = 0%Z \/ s = 1%Z) cluster_status ->
  (t < length cluster_status)%nat ->
  nth t (h2_multiplier startup_ratio
           (nth 0 cluster_status 0%Z :: Np.diff cluster_status)) 0
  = if starts_up cluster_status t then startup_ratio else 1.
Proof.
  intros Hb Ht. unfold h2_multiplier.
  rewrite (map_nth_in _ _ _ 0%Z)
    by (simpl; rewrite diff_length; lia).
  destruct t as [|t].
  - cbn [nth starts_up].
    destruct (binary_nth _ 0%nat Hb Ht) as [E|E]; rewrite E; reflexivity.
  - cbn [nth starts_up turns_on]. rewrite diff_nth by lia.
    destruct (binary_nth _ t Hb ltac:(lia)) as [E0|E0],
             (binary_nth _ (S t) Hb Ht) as [E1|E1];
      rewrite E0, E1; reflexivity.
Qed.

Section Simulation.

Variable np_log : Q -> Q.
Variable np_sqrt : Q -> Q.
Variable np_exp : Q -> Q.
Variable np_arcsinh : Q -> Q.
Variable np_power : Q -> Q -> Q.
Variable count_cycles : list Q -> list (Q * Q).

Local Abbreviation run' := (run np_log np_sqrt np_exp np_arcsinh np_power count_cycles).
Local Abbreviation run_branch' :=
  (run_branch np_log np_sqrt np_exp np_arcsinh np_power count_cycles).

Lemma full_degradation_inr_length (self : PEM_H2_Clusters)
    (cluster_status : list Z) (voltage_signal voltage_final deg_signal : list Q)
    (cnt : option (list Z)) :
  full_degradation count_cycles self cluster_status voltage_signal
  = inr (voltage_final, deg_signal, cnt) ->
  cluster_status <> [] ->
  length voltage_signal = length cluster_status ->
  length deg_signal = length cluster_status
  /\ cnt = (if use_onoff_deg self then Some (off_cycle_cnt cluster_status) else None).
Proof.
  intros Hfd Hne Hlen. unfold full_degradation in Hfd.
  apply bind_inr in Hfd as (V_deg_uptime & Hup & Hfd).
  apply bind_inr in Hfd as (V_fatigue & Hfat & Hfd).
  inversion Hfd; subst; clear Hfd. split; [|reflexivity].
  assert (Lup : length V_deg_uptime = length cluster_status).
  { destruct (use_uptime_deg self).
    - unfold calc_uptime_degradation in Hup.
      apply bind_inr in Hup as (x & _ & Hup). inversion Hup.
      rewrite !map2_length. lia.
    - inversion Hup. rewrite zeros_length, map2_length. lia. }
  set (V_deg_onoff := if use_onoff_deg self then _ else _) in *.
  assert (Lon : length V_deg_onoff = length cluster_status).
  { unfold V_deg_onoff. destruct (use_onoff_deg self).
    - now apply calc_onoff_degradation_length.
    - rewrite zeros_length, map2_length. lia. }
  clearbody V_deg_onoff.
  assert (Lfat : length V_fatigue = length cluster_status).
  { destruct (use_fatigue_deg self).
    - apply approx_fatigue_degradation_inr in Hfat. subst.
      rewrite fatigue_loop_length. repeat rewrite ?map2_length, ?cumsum_length.
      rewrite Lup, Lon. lia.
    - inversion Hfat. rewrite zeros_length, map2_length. lia. }
  repeat rewrite ?map2_length, ?cumsum_length. rewrite Lup, Lon, Lfat. lia.
Qed.

Lemma find_equivalent_input_power_4_deg_length (self : PEM_H2_Clusters)
    (cluster_status : list Z) (power_in_kW V_init V_deg : list Q) :
  length power_in_kW = length cluster_status ->
  length V_init = length cluster_status ->
  length V_deg = length cluster_status ->
  length (find_equivalent_input_power_4_deg np_power self cluster_status
            power_in_kW V_init V_deg)
  = length cluster_status.
Proof.
  intros H1 H2 H3. unfold find_equivalent_input_power_4_deg.
  repeat rewrite ?length_map, ?map2_length. lia.
Qed.

Lemma run_branch_inr (self : PEM_H2_Clusters) (cluster_status : list Z)
    (power_per_stack stack_current : list Q) (b : branch_state) :
  run_branch' self cluster_status power_per_stack stack_current = inr b ->
  cluster_status <> [] ->
  length power_per_stack = length cluster_status ->
  length stack_current = length cluster_status ->
  include_deg_penalty self = true
  /\ length (b_stack_current b) = length cluster_status
  /\ length (b_deg_signal b) = length cluster_status.
Proof.
  intros H Hne Lp Lc. unfold run_branch in H.
  destruct (include_deg_penalty self); [|discriminate].
  apply bind_inr in H as ([[V_cell_deg deg_signal] cnt] & Hfd & H).
  apply bind_inr in H as ([nsr_life tbr] & _ & H).
  inversion H; subst; clear H. cbn [b_stack_current b_deg_signal].
  apply full_degradation_inr_length in Hfd as [Ld _];
    [|assumption|now rewrite length_map].
  split; [reflexivity|]. split; [|assumption].
  apply find_equivalent_input_power_4_deg_length;
    [assumption|now rewrite length_map|assumption].
Qed.

(** The arrays [run] returns, in terms of the arrays it computes on the way. *)
Lemma run_inr (self : PEM_H2_Clusters) (input_external_power_kw : list Q)
    (res : h2_results) (agg : h2_results_aggregates) :
  run' self input_external_power_kw = inr (res, agg) ->
  let input_power_kw := fst (external_power_supply self input_external_power_kw) in
  let cluster_status := system_design input_power_kw (max_stacks self) in
  ~ dt self == 0
  /\ input_external_power_kw <> []
  /\ include_deg_penalty self = true
  /\ Stacks_on res = map (fun s => max_stacks self * inject_Z s) cluster_status
  /\ Power_Per_Stack_kW res = power_per_stack input_power_kw (Stacks_on res)
  /\ length (Stack_Current_A res) = length input_external_power_kw
  /\ hydrogen_production_no_startup_time res
     = Np.map2 (h2_production_rate self) (Stack_Current_A res) (Stacks_on res)
  /\ hydrogen_hourly_production res
     = Np.map2 Qmult (hydrogen_production_no_startup_time res)
         (h2_multiplier (1 - startup_time / dt self)
            (nth 0 cluster_status 0%Z :: Np.diff cluster_status))
  /\ kwh_per_kgH2 res
     = Np.map2 np_divide input_power_kw (hydrogen_hourly_production res).
Proof.
  intros H input_power_kw cluster_status. unfold run in H.
  destruct (Qeq_bool (dt self) 0) eqn:Edt; [discriminate|].
  fold input_power_kw in H. fold cluster_status in H.
  apply bind_inr in H as (cycling & Hcyc & H).
  apply bind_inr in H as (b & Hb & H).
  destruct (rated_h2_prod np_log np_sqrt np_exp np_arcsinh np_power self)
    as [p_consumed_max rated_h2_hr].
  apply bind_inr in H as (cnt & _ & H).
  apply bind_inr in H as (final_deg & _ & H).
  apply cluster_cycling_inr in Hcyc as [Hne Hcyc]. subst cycling.
  assert (Ls : length cluster_status = length input_external_power_kw).
  { unfold cluster_status, input_power_kw.
    now rewrite system_design_length, external_power_supply_length. }
  apply run_branch_inr in Hb as (Hinc & Lsc & _); auto.
  2:{ unfold power_per_stack. rewrite map2_length, length_map.
      unfold input_power_kw. rewrite external_power_supply_length. lia. }
  2:{ rewrite length_map. unfold power_per_stack.
      rewrite map2_length, length_map.
      unfold input_power_kw. rewrite external_power_supply_length. lia. }
  inversion H; subst; clear H. cbn.
  split. { intros E. apply Qeq_bool_iff in E. congruence. }
  split. { intros E. apply Hne. unfold cluster_status, input_power_kw. now rewrite E. }
  split; [assumption|].
  repeat split; try reflexivity. now rewrite Lsc.
Qed.

Lemma nonempty_of_length {A B} (l : list A) (l' : list B) :
  length l = length l' -> l' <> [] -> l <> [].
Proof. destruct l, l'; simpl; congruence. Qed.

Lemma full_degradation_returns (self : PEM_H2_Clusters)
    (cluster_status : list Z) (voltage_signal : list Q) :
  cluster_status <> [] ->
  length voltage_signal = length cluster_status ->
  exists voltage_final deg_signal cnt,
    full_degradation count_cycles self cluster_status voltage_signal
    = inr (voltage_final, deg_signal, cnt).
Proof.
  intros Hne Hlen. unfold full_degradation.
  set (vs := Np.map2 (fun v s => v * inject_Z s) voltage_signal cluster_status).
  assert (Lvs : length vs = length cluster_status)
    by (unfold vs; rewrite map2_length; lia).
  assert (Hup : exists V_deg_uptime,
             (if use_uptime_deg self
              then calc_uptime_degradation self cluster_status vs
              else ret (Np.zeros (length vs))) = inr V_deg_uptime
             /\ length V_deg_uptime = length cluster_status).
  { destruct (use_uptime_deg self).
    - unfold calc_uptime_degradation.
      set (inc := Np.map2 _ vs cluster_status).
      assert (Li : length inc = length cluster_status)
        by (unfold inc; rewrite map2_length; lia).
      destruct (last_elem_nonempty (Np.cumsum inc)) as [x Hx].
      { apply (nonempty_of_length _ cluster_status); [|assumption].
        now rewrite cumsum_length. }
      exists inc. rewrite Hx. split; [reflexivity|assumption].
    - exists (Np.zeros (length vs)). split; [reflexivity|].
      now rewrite zeros_length. }
  destruct Hup as (V_deg_uptime & Hup & Lup). rewrite Hup. cbn [bind].
  set (V_deg_onoff := if use_onoff_deg self then _ else _).
  assert (Lon : length V_deg_onoff = length cluster_status).
  { unfold V_deg_onoff. destruct (use_onoff_deg self).
    - now apply calc_onoff_degradation_length.
    - now rewrite zeros_length. }
  set (V_signal := Np.map2 Qplus (Np.map2 Qplus vs _) _).
  assert (Lsig : length V_signal = length cluster_status).
  { unfold V_signal. repeat rewrite ?map2_length, ?cumsum_length. lia. }
  assert (Hfat : exists V_fatigue,
             (if use_fatigue_deg self
              then approx_fatigue_degradation count_cycles V_signal
              else ret (Np.zeros (length vs))) = inr V_fatigue).
  { destruct (use_fatigue_deg self); [|eexists; reflexivity].
    destruct (approx_fatigue_degradation_steps count_cycles V_signal)
      as (V_fatigue & H & _).
    - now apply (nonempty_of_length _ cluster_status).
    - eauto. }
  destruct Hfat as (V_fatigue & Hfat). rewrite Hfat. cbn [bind ret].
  eauto.
Qed.

Lemma run_branch_returns (self : PEM_H2_Clusters) (cluster_status : list Z)
    (power_per_stack stack_current : list Q) :
  include_deg_penalty self = true ->
  cluster_status <> [] ->
  length stack_current = length cluster_status ->
  exists b,
    run_branch' self cluster_status power_per_stack stack_current = inr b
    /\ b_off_cycle_cnt b
       = (if use_onoff_deg self then Some (off_cycle_cnt cluster_status) else None)
    /\ b_deg_signal b <> [].
Proof.
  intros Hinc Hne Lc. unfold run_branch. rewrite Hinc.
  set (V_init := map _ stack_current).
  assert (LV : length V_init = length cluster_status)
    by (unfold V_init; now rewrite length_map).
  destruct (full_degradation_returns self cluster_status V_init Hne LV)
    as (vf & deg & cnt & Hfd).
  rewrite Hfd. cbn [bind].
  apply full_degradation_inr_length in Hfd as [Ld Hcnt]; auto.
  assert (Hdne : deg <> []) by now apply (nonempty_of_length _ cluster_status).
  unfold calc_stack_replacement_info.
  destruct (last_elem_nonempty deg Hdne) as [d_sim Hd]. rewrite Hd.
  cbn [bind ret]. eexists. split; [reflexivity|]. cbn. auto.
Qed.

(** With the degradation penalty and the cycling mechanism on (as [__init__]
    leaves them), a non-zero timestep and at least one step of input, [run]
    returns its two bundles. *)
Lemma run_returns (self : PEM_H2_Clusters) (input_external_power_kw : list Q) :
  include_deg_penalty self = true ->
  use_onoff_deg self = true ->
  ~ dt self == 0 ->
  input_external_power_kw <> [] ->
  exists res agg, run' self input_external_power_kw = inr (res, agg).
Proof.
  intros Hinc Hon Hdt Hne. unfold run.
  destruct (Qeq_bool (dt self) 0) eqn:Edt.
  { apply Qeq_bool_iff in Edt. contradiction. }
  set (input_power_kw := fst (external_power_supply self input_external_power_kw)).
  set (cluster_status := system_design input_power_kw (max_stacks self)).
  assert (Ls : length cluster_status = length input_external_power_kw).
  { unfold cluster_status, input_power_kw.
    now rewrite system_design_length, external_power_supply_length. }
  assert (Hsne : cluster_status <> [])
    by now apply (nonempty_of_length _ input_external_power_kw).
  destruct cluster_status as [|s0 l] eqn:Es; [congruence|].
  cbn [cluster_cycling bind ret]. rewrite <- Es in *.
  set (n_stacks_op := map _ cluster_status).
  set (pps := power_per_stack input_power_kw n_stacks_op).
  set (sc := map _ pps).
  assert (Lsc : length sc = length cluster_status).
  { unfold sc, pps, power_per_stack, n_stacks_op.
    rewrite length_map, map2_length, length_map.
    unfold input_power_kw. rewrite external_power_supply_length. lia. }
  destruct (run_branch_returns self cluster_status pps sc Hinc Hsne Lsc)
    as (b & Hb & Hcnt & Hdeg).
  rewrite Hb. cbn [bind].
  destruct (rated_h2_prod np_log np_sqrt np_exp np_arcsinh np_power self)
    as [p_consumed_max rated_h2_hr].
  rewrite Hcnt, Hon. cbn [read_attr bind ret].
  destruct (last_elem_nonempty _ Hdeg) as [final_deg Hf]. rewrite Hf.
  cbn [bind ret]. eauto.
Qed.

(** *** Start-up penalty *)

(** C8, amended: when [run] returns, the hydrogen output of a step is the
    output without start-up loss times [1 - startup_time/dt], with
    [startup_time = 600] s, exactly at the steps where the status rises from
    0 to 1 with the cluster counted as off before the first step (so the
    first step is penalised whenever its status is 1), and times 1 at every
    other step. *)
Theorem startup_penalty_at_every_start (self : PEM_H2_Clusters)
    (input_external_power_kw : list Q)
    (res : h2_results) (agg : h2_results_aggregates) (t : nat) :
  run' self input_external_power_kw = inr (res, agg) ->
  (t < length input_external_power_kw)%nat ->
  let cluster_status :=
    system_design (fst (external_power_supply self input_external_power_kw))
                  (max_stacks self) in
  startup_time = 600
  /\ nth t (hydrogen_hourly_production res) 0
     = nth t (hydrogen_production_no_startup_time res) 0
       * (if starts_up cluster_status t then 1 - startup_time / dt self else 1).
Proof.
  intros Hrun Ht cluster_status. split; [reflexivity|].
  apply run_inr in Hrun
    as (_ & _ & _ & Hst & _ & Lsc & Hno & Hh2 & _).
  fold cluster_status in Hst, Hh2.
  assert (Ls : length cluster_status = length input_external_power_kw).
  { unfold cluster_status.
    now rewrite system_design_length, external_power_supply_length. }
  rewrite Hh2.
  rewrite (map2_nth _ _ _ _ 0 0).
  - rewrite h2_multiplier_nth; [reflexivity| |lia].
    apply system_design_binary.
  - rewrite Hno, map2_length, Hst, length_map. lia.
  - unfold h2_multiplier. rewrite length_map. simpl. rewrite diff_length. lia.
Qed.

(** *** Degenerate divisions *)

Lemma np_divide_by_zero (x y : Q) :
  y == 0 -> is_finite (np_divide x y) = false
            /\ (x == 0 -> np_divide x y = NaN)
            /\ (~ x == 0 -> np_divide x y = Inf).
Proof.
  intros Hy. unfold np_divide. apply Qeq_bool_iff in Hy. rewrite Hy.
  destruct (Qeq_bool x 0) eqn:Ex.
  - apply Qeq_bool_iff in Ex. repeat split; auto. intros H. contradiction.
  - apply Qeq_bool_neq in Ex. repeat split; auto. intros H. contradiction.
Qed.

(** What [run] reports at a step where no stack is on: the power per stack
    is the guarded 0, the hydrogen production is zero, and the ratio
    kWh per kg is the quotient of the input power by that zero, [nan] or
    [inf]. *)
Lemma run_step_without_stacks (self : PEM_H2_Clusters)
    (input_external_power_kw : list Q)
    (res : h2_results) (agg : h2_results_aggregates) (t : nat) :
  run' self input_external_power_kw = inr (res, agg) ->
  (t < length input_external_power_kw)%nat ->
  nth t (Stacks_on res) 0 == 0 ->
  nth t (Power_Per_Stack_kW res) 0 = 0
  /\ nth t (hydrogen_hourly_production res) 0 == 0
  /\ is_finite (nth t (kwh_per_kgH2 res) (Fin 0)) = false
  /\ (nth t (fst (external_power_supply self input_external_power_kw)) 0 == 0 ->
      nth t (kwh_per_kgH2 res) (Fin 0) = NaN).
Proof.
  intros Hrun Ht Hz.
  apply run_inr in Hrun
    as (_ & _ & _ & Hst & Hpps & Lsc & Hno & Hh2 & Hk).
  set (input_power_kw := fst (external_power_supply self input_external_power_kw)) in *.
  set (cluster_status := system_design input_power_kw (max_stacks self)) in *.
  assert (Li : length input_power_kw = length input_external_power_kw)
    by apply external_power_supply_length.
  assert (Ls : length cluster_status = length input_external_power_kw).
  { unfold cluster_status. now rewrite system_design_length. }
  assert (Lst : length (Stacks_on res) = length input_external_power_kw)
    by (rewrite Hst, length_map; exact Ls).
  assert (Lno : length (hydrogen_production_no_startup_time res)
                = length input_external_power_kw)
    by (rewrite Hno, map2_length; lia).
  assert (Lm : length (h2_multiplier (1 - startup_time / dt self)
                         (nth 0 cluster_status 0%Z :: Np.diff cluster_status))
               = length input_external_power_kw).
  { unfold h2_multiplier. rewrite length_map. simpl. rewrite diff_length. lia. }
  assert (Lh : length (hydrogen_hourly_production res)
               = length input_external_power_kw)
    by (rewrite Hh2, map2_length; lia).
  assert (Hh0 : nth t (hydrogen_hourly_production res) 0 == 0).
  { rewrite Hh2. rewrite (map2_nth _ _ _ _ 0 0) by lia.
    rewrite Hno. rewrite (map2_nth _ _ _ _ 0 0) by lia.
    unfold h2_production_rate. rewrite Hz. ring. }
  split; [|split; [exact Hh0|]].
  - rewrite Hpps. unfold power_per_stack.
    rewrite (map2_nth _ _ _ _ 0 0) by lia.
    assert (G : Np.gtb (nth t (Stacks_on res) 0) 0 = false)
      by (apply gtb_false_iff; lra).
    now rewrite G.
  - rewrite Hk. rewrite (map2_nth _ _ _ _ 0 0) by lia.
    destruct (np_divide_by_zero (nth t input_power_kw 0) _ Hh0) as (H1 & H2 & _).
    split; assumption.
Qed.

(** C7 (the code departs from the claim): a one-stack cluster is given
    1000 kW, 0 kW, 1000 kW.  In the second step no stack is on; the power per
    stack is the guarded 0, as claimed, but the hydrogen production is zero
    and the reported ratio kWh per kg is [0/0 = nan], not a zero or a
    sentinel: [input_power_kw / h2_kg_hr_system] has no guard. *)
Theorem kwh_per_kgH2_divides_by_zero_hydrogen :
  exists res agg,
    run' one_stack [1000; 0; 1000] = inr (res, agg)
    /\ nth 1 (Stacks_on res) 0 == 0
    /\ nth 1 (Power_Per_Stack_kW res) 0 = 0
    /\ nth 1 (hydrogen_hourly_production res) 0 == 0
    /\ nth 1 (kwh_per_kgH2 res) (Fin 0) = NaN.
Proof.
  destruct (run_returns one_stack [1000; 0; 1000]) as (res & agg & Hrun);
    try reflexivity; try discriminate.
  exists res, agg. split; [exact Hrun|].
  assert (Hz : nth 1 (Stacks_on res) 0 == 0).
  { pose proof (run_inr _ _ _ _ Hrun) as (_ & _ & _ & Hst & _).
    rewrite Hst. reflexivity. }
  split; [exact Hz|].
  destruct (run_step_without_stacks one_stack [1000; 0; 1000] res agg 1 Hrun)
    as (H1 & H2 & _ & H4); [simpl; lia|exact Hz|].
  split; [exact H1|]. split; [exact H2|]. apply H4. reflexivity.
Qed.

(** *** The branch without degradation penalty *)

(** C10, amended: with [include_degradation_penalty = False], [run] never
    returns an output bundle; on every non-empty input series (and a
    non-zero timestep [dt]) it fails with the undefined-variable error for
    [V_init]. *)
Theorem run_without_penalty_raises (self : PEM_H2_Clusters)
    (input_external_power_kw : list Q) :
  include_deg_penalty self = false ->
  (forall res agg, run' self input_external_power_kw <> inr (res, agg))
  /\ (~ dt self == 0 -> input_external_power_kw <> [] ->
      run' self input_external_power_kw = inl UnboundLocalError).
Proof.
  intros Hinc. split.
  - intros res agg H. apply run_inr in H as (_ & _ & H & _). congruence.
  - intros Hdt Hne. unfold run.
    destruct (Qeq_bool (dt self) 0) eqn:Edt.
    { apply Qeq_bool_iff in Edt. contradiction. }
    destruct input_external_power_kw as [|p l]; [congruence|].
    cbn [external_power_supply fst map system_design cluster_cycling bind ret].
    unfold run_branch. rewrite Hinc. reflexivity.
Qed.

End Simulation.

(** A witness for C8: the cluster is off in the first hour and starts in the
    second. *)
Lemma startup_penalty_at_every_start_witness :
  exists res agg,
    run lin_log lin_sqrt lin_exp lin_arcsinh lin_power half_cycles
        one_stack [0; 1000] = inr (res, agg)
    /\ startup_time = 600
    /\ nth 1 (hydrogen_hourly_production res) 0
       = nth 1 (hydrogen_production_no_startup_time res) 0
         * (if starts_up
                 (system_design (fst (external_power_supply one_stack [0; 1000]))
                                (max_stacks one_stack)) 1
            then 1 - startup_time / dt one_stack else 1).
Proof.
  destruct (run_returns lin_log lin_sqrt lin_exp lin_arcsinh lin_power half_cycles
              one_stack [0; 1000]) as (res & agg & Hrun);
    try reflexivity; try discriminate.
  exists res, agg. split; [exact Hrun|].
  apply (startup_penalty_at_every_start
           lin_log lin_sqrt lin_exp lin_arcsinh lin_power half_cycles
           one_stack [0; 1000] res agg 1 Hrun).
  simpl. lia.
Defined.

(** C8, as stated, fails: a one-stack cluster given 1000 kW in both of its
    two steps is on throughout; the only forward difference of the status is
    0 (no OFF-to-ON transition occurs), and the factor of the first step is
    [1 - 600/3600], not 1. *)
Lemma startup_penalty_without_transition :
  let cluster_status :=
    system_design (fst (external_power_supply one_stack [1000; 1000]))
                  (max_stacks one_stack) in
  cluster_status = [1%Z; 1%Z]
  /\ Np.diff cluster_status = [0%Z]
  /\ turns_on cluster_status 0 = false
  /\ cluster_cycling cluster_status = inr [1%Z; 0%Z]
  /\ h2_multiplier (1 - startup_time / dt one_stack) [1%Z; 0%Z]
     = [1 - startup_time / dt one_stack; 1]
  /\ ~ 1 - startup_time / dt one_stack == 1.
Proof.
  cbv zeta. repeat split; try reflexivity. intros H. vm_compute in H. discriminate.
Qed.

(** A witness for C10: one hour at 1000 kW. *)
Lemma run_without_penalty_raises_witness :
  (forall res agg,
      run lin_log lin_sqrt lin_exp lin_arcsinh lin_power half_cycles
          one_stack_no_penalty [1000] <> inr (res, agg))
  /\ (~ dt one_stack_no_penalty == 0 -> [1000] <> [] ->
      run lin_log lin_sqrt lin_exp lin_arcsinh lin_power half_cycles
          one_stack_no_penalty [1000] = inl UnboundLocalError).
Proof.
  apply (run_without_penalty_raises
           lin_log lin_sqrt lin_exp lin_arcsinh lin_power half_cycles
           one_stack_no_penalty [1000]).
  reflexivity.
Defined.

(** C10, as stated, fails: on the empty series [run] stops earlier, at
    [self.cluster_status[0]], with an index error; the undefined [V_init] is
    never reached. *)
Lemma run_without_penalty_empty_series :
  run lin_log lin_sqrt lin_exp lin_arcsinh lin_power half_cycles
      one_stack_no_penalty [] = inl IndexError
  /\ IndexError <> UnboundLocalError.
Proof. split; [reflexivity|discriminate]. Qed.

(** ** Equivalent current *)

Section EquivalentCurrent.

Variable np_power : Q -> Q -> Q.

(** The current [find_equivalent_input_power_4_deg] returns for one step. *)
Lemma find_equivalent_input_power_4_deg_nth (self : PEM_H2_Clusters)
    (cluster_status : list Z) (power_in_kW V_init V_deg : list Q) (t : nat) :
  length power_in_kW = length cluster_status ->
  length V_init = length cluster_status ->
  length V_deg = length cluster_status ->
  (t < length cluster_status)%nat ->
  let p := nth t power_in_kW 0 in
  let I_in := calc_current np_power p T_C (curve_coeff self) in
  let P_bol := I_in * (nth t V_init 0 + nth t V_deg 0) * N_cells / 1000 in
  let P_consumed :=
    (if Np.geb P_bol p then P_bol else p) * inject_Z (nth t cluster_status 0%Z) in
  let I_equiv :=
    calc_current np_power (p - (P_consumed - p)) T_C (curve_coeff self) in
  nth t (find_equivalent_input_power_4_deg np_power self cluster_status
           power_in_kW V_init V_deg) 0
  = if Np.gtb I_equiv 0 then I_equiv else 0.
Proof.
  intros L1 L2 L3 Ht. cbv zeta. unfold find_equivalent_input_power_4_deg.
  rewrite (map_nth_in _ _ _ 0)
    by (repeat rewrite ?length_map, ?map2_length; lia).
  rewrite (map_nth_in _ _ _ 0)
    by (repeat rewrite ?length_map, ?map2_length; lia).
  rewrite (map2_nth _ _ _ _ 0 0)
    by (repeat rewrite ?length_map, ?map2_length; lia).
  rewrite (map2_nth _ _ _ _ 0 0)
    by (repeat rewrite ?length_map, ?map2_length; lia).
  rewrite (map2_nth _ _ _ _ 0 0%Z)
    by (repeat rewrite ?length_map, ?map2_length; lia).
  rewrite (map2_nth _ _ _ _ 0 0)
    by (repeat rewrite ?length_map, ?map2_length; lia).
  rewrite (map2_nth _ _ _ _ 0 0)
    by (repeat rewrite ?length_map, ?map2_length; lia).
  rewrite (map2_nth _ _ _ _ 0 0)
    by (repeat rewrite ?length_map, ?map2_length; lia).
  rewrite (map_nth_in _ _ _ 0) by lia.
  reflexivity.
Qed.

(** Equal powers give equal currents when the float power function does. *)
Hypothesis np_power_compat :
  forall x y e, x == y -> np_power x e == np_power y e.

Lemma calc_current_compat (x y tempc : Q) (c : curve_coefficients) :
  x == y -> calc_current np_power x tempc c == calc_current np_power y tempc c.
Proof.
  intros H. unfold calc_current.
  rewrite (np_power_compat x y (1 / 2) H). now rewrite H.
Qed.

(** C3, amended: with a degradation signal that is zero everywhere, the
    equivalent current of a step equals the BOL current of the curve fit at
    the same delivered power when the cluster is on at that step, the BOL
    current is positive, and the power consumed at the BOL current and
    voltage, [I * V_init * N_cells / 1000], does not exceed the delivered
    power. *)
Theorem equivalent_current_is_bol_current (self : PEM_H2_Clusters)
    (cluster_status : list Z) (power_in_kW V_init V_deg : list Q) (t : nat) :
  length power_in_kW = length cluster_status ->
  length V_init = length cluster_status ->
  length V_deg = length cluster_status ->
  (t < length cluster_status)%nat ->
  Forall (fun d => d == 0) V_deg ->
  nth t cluster_status 0%Z = 1%Z ->
  let I_in := calc_current np_power (nth t power_in_kW 0) T_C (curve_coeff self) in
  0 < I_in ->
  I_in * nth t V_init 0 * N_cells / 1000 <= nth t power_in_kW 0 ->
  nth t (find_equivalent_input_power_4_deg np_power self cluster_status
           power_in_kW V_init V_deg) 0
  == I_in.
Proof.
  intros L1 L2 L3 Ht Hdeg Hon I_in Hpos Hbol.
  rewrite find_equivalent_input_power_4_deg_nth by assumption.
  cbv zeta. fold I_in. rewrite Hon.
  assert (Hd : nth t V_deg 0 == 0).
  { rewrite Forall_forall in Hdeg. apply Hdeg, nth_In. lia. }
  set (p := nth t power_in_kW 0) in *.
  set (P_bol := I_in * (nth t V_init 0 + nth t V_deg 0) * N_cells / 1000).
  assert (HP : P_bol == I_in * nth t V_init 0 * N_cells / 1000).
  { unfold P_bol. rewrite Hd. field. }
  assert (Hc : (if Np.geb P_bol p then P_bol else p) == p).
  { destruct (Np.geb P_bol p) eqn:E; [|reflexivity].
    apply geb_true_iff in E. lra. }
  assert (He : p - ((if Np.geb P_bol p then P_bol else p) * inject_Z 1 - p) == p).
  { rewrite Hc. change (inject_Z 1) with 1. ring. }
  assert (Hi : calc_current np_power
                 (p - ((if Np.geb P_bol p then P_bol else p) * inject_Z 1 - p))
                 T_C (curve_coeff self) == I_in).
  { unfold I_in. now apply calc_current_compat. }
  set (I_equiv := calc_current np_power (p - _) T_C (curve_coeff self)) in *.
  assert (G : Np.gtb I_equiv 0 = true) by (apply gtb_true_iff; lra).
  rewrite G. exact Hi.
Qed.

End EquivalentCurrent.

Lemma lin_power_compat (x y e : Q) : x == y -> lin_power x e == lin_power y e.
Proof. intros H. unfold lin_power. now rewrite H. Qed.

(** A witness for C3: 500 kW delivered, a BOL current of 2000 A at 1.9 V
    (494 kW consumed). *)
Lemma equivalent_current_is_bol_current_witness :
  nth 0 (find_equivalent_input_power_4_deg lin_power one_stack [1%Z]
           [500] [1.9] [0]) 0
  == calc_current lin_power (nth 0 [500] 0) T_C (curve_coeff one_stack).
Proof.
  apply (equivalent_current_is_bol_current lin_power lin_power_compat
           one_stack [1%Z] [500] [1.9] [0] 0%nat);
    try reflexivity.
  - simpl. lia.
  - repeat constructor.
  - vm_compute. discriminate.
Defined.

(** C3, as stated, fails: 500 kW delivered, no degradation, the cluster on;
    the curve gives a BOL current of 2000 A, which at a BOL voltage of 2 V
    consumes 520 kW; the correction aims at 480 kW and returns 1920 A. *)
Lemma equivalent_current_below_bol_current :
  nth 0 (find_equivalent_input_power_4_deg lin_power one_stack [1%Z]
           [500] [2] [0]) 0 == 1920
  /\ calc_current lin_power 500 T_C (curve_coeff one_stack) == 2000
  /\ ~ 1920 == 2000.
Proof. repeat split; try (vm_compute; reflexivity). discriminate. Qed.

(** ** The on/off threshold *)

(** C1 (the code departs from the claim): a one-stack cluster, rated
    1000 kW, is given 50, 60 and 70 kW, all below 10 % of its rated capacity
    (100 kW).  [run] compares the power in kW with a tenth of the cluster
    size in MW, so the status it computes is 1, not 0, at every step, and it
    reports one stack on throughout. *)
Theorem system_design_compares_kw_with_mw :
  forall (np_log np_sqrt np_exp np_arcsinh : Q -> Q) (np_power : Q -> Q -> Q)
         (count_cycles : list Q -> list (Q * Q)),
    Forall (fun p => p < 0.1 * (max_stacks one_stack * stack_rating_kW))
           [50; 60; 70]
    /\ system_design (fst (external_power_supply one_stack [50; 60; 70]))
                     (max_stacks one_stack)
       = [1%Z; 1%Z; 1%Z]
    /\ exists res agg,
         run np_log np_sqrt np_exp np_arcsinh np_power count_cycles
             one_stack [50; 60; 70] = inr (res, agg)
         /\ Stacks_on res
            = map (fun s => max_stacks one_stack * inject_Z s) [1%Z; 1%Z; 1%Z].
Proof.
  intros. split; [repeat constructor|]. split; [reflexivity|].
  destruct (run_returns np_log np_sqrt np_exp np_arcsinh np_power count_cycles
              one_stack [50; 60; 70]) as (res & agg & Hrun);
    try reflexivity; try discriminate.
  exists res, agg. split; [exact Hrun|].
  now apply run_inr in Hrun as (_ & _ & _ & Hst & _).
Qed.

(** * Further properties of the engine *)

(** ** Power accounting of the external supply *)

(** X1: [external_power_supply] loses no power: at every step the power it
    hands on plus the power it records as curtailed is the raw input, and
    the curtailed power is never negative. *)
Theorem external_power_supply_splits_power
    (self : PEM_H2_Clusters) (input_external_power_kw : list Q) (t : nat) :
  nth t (fst (external_power_supply self input_external_power_kw)) 0
  + nth t (snd (external_power_supply self input_external_power_kw)) 0
  == nth t input_external_power_kw 0
  /\ 0 <= nth t (snd (external_power_supply self input_external_power_kw)) 0.
Proof.
  unfold external_power_supply. cbn [fst snd].
  set (cap := max_stacks self * stack_rating_kW).
  revert t. induction input_external_power_kw as [|p l IH]; intros t.
  - destruct t; simpl; split; lra.
  - destruct t as [|t]; [|apply IH]. cbn [map nth].
    destruct (Np.gtb p cap) eqn:E.
    + apply gtb_true_iff in E. split; lra.
    + split; lra.
Qed.

(** ** Faradaic efficiency and hydrogen production *)

Lemma ratio_to_shifted_square_mono (a b : Q) :
  0 <= a -> a <= b -> a / (250 + a) <= b / (250 + b).
Proof.
  intros Ha Hab.
  apply Qle_shift_div_r; [lra|].
  setoid_replace (b / (250 + b) * (250 + a)) with (b * (250 + a) / (250 + b))
    by (field; lra).
  apply Qle_shift_div_l; [lra|]. nra.
Qed.

Lemma current_density_square_mono (I1 I2 : Q) :
  0 <= I1 -> I1 <= I2 ->
  (I1 * 1000 / cell_active_area) ^ 2 <= (I2 * 1000 / cell_active_area) ^ 2.
Proof.
  intros H1 H12. unfold cell_active_area.
  setoid_replace ((I1 * 1000 / 1920) ^ 2) with ((625 # 2304) * (I1 * I1))
    by (simpl; field).
  setoid_replace ((I2 * 1000 / 1920) ^ 2) with ((625 # 2304) * (I2 * I2))
    by (simpl; field).
  nra.
Qed.

Lemma current_density_square_even (I : Q) :
  ((- I) * 1000 / cell_active_area) ^ 2 == (I * 1000 / cell_active_area) ^ 2.
Proof. unfold cell_active_area. simpl. field. Qed.

Lemma faradaic_efficiency_range (I : Q) :
  0 <= faradaic_efficiency I /\ faradaic_efficiency I < 0.996.
Proof.
  unfold faradaic_efficiency.
  destruct (current_density_square I) as [Ha _].
  destruct (ratio_to_shifted_square _ Ha) as [[Hr0 Hr1] _]. split; lra.
Qed.

Lemma faradaic_efficiency_mono (I1 I2 : Q) :
  0 <= I1 -> I1 <= I2 -> faradaic_efficiency I1 <= faradaic_efficiency I2.
Proof.
  intros H1 H12. unfold faradaic_efficiency.
  pose proof (current_density_square_mono I1 I2 H1 H12) as Hm.
  destruct (current_density_square I1) as [Ha _].
  pose proof (ratio_to_shifted_square_mono _ _ Ha Hm). lra.
Qed.

(** X2: the Faradaic efficiency of any current, of either sign, is at least
    0 and stays strictly below [f_2 = 0.996]; it depends on the size of the
    current only, and it does not decrease when a non-negative current
    grows. *)
Theorem faradaic_efficiency_below_f2 (I1 I2 : Q) :
  (0 <= faradaic_efficiency I1 /\ faradaic_efficiency I1 < 0.996)
  /\ faradaic_efficiency (- I1) == faradaic_efficiency I1
  /\ (0 <= I1 -> I1 <= I2 -> faradaic_efficiency I1 <= faradaic_efficiency I2).
Proof.
  split; [apply faradaic_efficiency_range|]. split.
  - unfold faradaic_efficiency. now rewrite current_density_square_even.
  - apply faradaic_efficiency_mono.
Qed.

(** The production of [h2_production_rate] as a multiple of efficiency times
    current. *)
Lemma h2_production_rate_factored (self : PEM_H2_Clusters) (I n : Q) :
  h2_production_rate self I n
  == (n * dt self) * (130 / (2 * F * moles_per_g_h2 * 1000))
     * (faradaic_efficiency I * I).
Proof.
  unfold h2_production_rate, total_efficiency, N_cells, F, moles_per_g_h2. field.
Qed.

Lemma h2_production_rate_mono (self : PEM_H2_Clusters) (I1 I2 n : Q) :
  0 <= n -> 0 <= dt self -> 0 <= I1 -> I1 <= I2 ->
  0 <= h2_production_rate self I1 n
  /\ h2_production_rate self I1 n <= h2_production_rate self I2 n.
Proof.
  intros Hn Hdt H1 H12. rewrite !h2_production_rate_factored.
  assert (HK : 0 <= n * dt self * (130 / (2 * F * moles_per_g_h2 * 1000))).
  { apply Qmult_le_0_compat; [now apply Qmult_le_0_compat|].
    unfold F, moles_per_g_h2. discriminate. }
  set (K := n * dt self * (130 / (2 * F * moles_per_g_h2 * 1000))) in *.
  destruct (faradaic_efficiency_range I1) as (E0 & _).
  pose proof (faradaic_efficiency_mono I1 I2 H1 H12) as Em.
  assert (P1 : 0 <= faradaic_efficiency I1 * I1) by now apply Qmult_le_0_compat.
  assert (P12 : faradaic_efficiency I1 * I1 <= faradaic_efficiency I2 * I2) by nra.
  split.
  - now apply Qmult_le_0_compat.
  - rewrite !(Qmult_comm K). apply Qmult_le_compat_r; assumption.
Qed.

(** X3: for a non-negative stack count and timestep, [h2_production_rate]
    is zero at zero current and at zero stacks, is never negative for a
    non-negative current, and does not decrease when the current grows. *)
Theorem h2_production_rate_grows_with_current
    (self : PEM_H2_Clusters) (I1 I2 n : Q) :
  0 <= n -> 0 <= dt self ->
  h2_production_rate self 0 n == 0
  /\ h2_production_rate self I1 0 == 0
  /\ (0 <= I1 -> I1 <= I2 ->
      0 <= h2_production_rate self I1 n
      /\ h2_production_rate self I1 n <= h2_production_rate self I2 n).
Proof.
  intros Hn Hdt. split; [|split].
  - rewrite h2_production_rate_factored. ring.
  - rewrite h2_production_rate_factored. ring.
  - intros H1 H12. now apply h2_production_rate_mono.
Qed.

(** A witness for X3: one stack, hourly steps, 1000 A against 2000 A. *)
Lemma h2_production_rate_grows_with_current_witness :
  h2_production_rate one_stack 0 1 == 0
  /\ h2_production_rate one_stack 1000 0 == 0
  /\ (0 <= 1000 -> 1000 <= 2000 ->
      0 <= h2_production_rate one_stack 1000 1
      /\ h2_production_rate one_stack 1000 1 <= h2_production_rate one_stack 2000 1).
Proof.
  apply (h2_production_rate_grows_with_current one_stack 1000 2000 1);
    discriminate.
Defined.

(** ** The equivalent current and the degradation *)

Section CorrectionMonotone.

Variable np_power : Q -> Q -> Q.
Variable self : PEM_H2_Clusters.

(** The fitted curve is increasing in the power. *)
Hypothesis curve_increasing :
  forall x y, x <= y ->
    calc_current np_power x T_C (curve_coeff self)
    <= calc_current np_power y T_C (curve_coeff self).

Lemma clamp_at_zero_mono (x y : Q) :
  x <= y ->
  (if Np.gtb x 0 then x else 0) <= (if Np.gtb y 0 then y else 0).
Proof.
  intros H. destruct (Np.gtb x 0) eqn:Ex, (Np.gtb y 0) eqn:Ey;
    try apply gtb_true_iff in Ex; try apply gtb_false_iff in Ex;
    try apply gtb_true_iff in Ey; try apply gtb_false_iff in Ey; lra.
Qed.

Lemma floor_at_delivered_mono (a b p : Q) :
  a <= b ->
  (if Np.geb a p then a else p) <= (if Np.geb b p then b else p).
Proof.
  intros H. destruct (Np.geb a p) eqn:Ea, (Np.geb b p) eqn:Eb;
    try apply geb_true_iff in Ea; try apply geb_true_iff in Eb;
    unfold Np.geb in *;
    try (apply negb_false_iff, ltb_true_iff in Ea);
    try (apply negb_false_iff, ltb_true_iff in Eb); lra.
Qed.

Lemma floor_at_delivered_ge (a p : Q) : p <= (if Np.geb a p then a else p).
Proof.
  destruct (Np.geb a p) eqn:Ea; [apply geb_true_iff in Ea|]; lra.
Qed.

(** X4: for an increasing curve, at a step where the status is 0 or 1 and
    the BOL current is not negative, a larger degradation voltage never
    gives a larger equivalent current. *)
Theorem equivalent_current_falls_with_degradation
    (cluster_status : list Z) (power_in_kW V_init V_deg V_deg' : list Q)
    (t : nat) :
  length power_in_kW = length cluster_status ->
  length V_init = length cluster_status ->
  length V_deg = length cluster_status ->
  length V_deg' = length cluster_status ->
  (t < length cluster_status)%nat ->
  (0 <= nth t cluster_status 0)%Z ->
  0 <= calc_current np_power (nth t power_in_kW 0) T_C (curve_coeff self) ->
  nth t V_deg 0 <= nth t V_deg' 0 ->
  nth t (find_equivalent_input_power_4_deg np_power self cluster_status
           power_in_kW V_init V_deg') 0
  <= nth t (find_equivalent_input_power_4_deg np_power self cluster_status
              power_in_kW V_init V_deg) 0.
Proof.
  intros L1 L2 L3 L3' Ht Hs HI Hd.
  rewrite !find_equivalent_input_power_4_deg_nth by assumption. cbv zeta.
  set (p := nth t power_in_kW 0) in *.
  set (I_in := calc_current np_power p T_C (curve_coeff self)) in *.
  set (s := inject_Z (nth t cluster_status 0%Z)).
  assert (Hs0 : 0 <= s).
  { unfold s. change 0 with (inject_Z 0). now rewrite <- Zle_Qle. }
  set (Pb := I_in * (nth t V_init 0 + nth t V_deg 0) * N_cells / 1000).
  set (Pb' := I_in * (nth t V_init 0 + nth t V_deg' 0) * N_cells / 1000).
  assert (HP : Pb <= Pb').
  { unfold Pb, Pb', N_cells.
    setoid_replace (I_in * (nth t V_init 0 + nth t V_deg 0) * 130 / 1000)
      with ((13 # 100) * (I_in * nth t V_init 0 + I_in * nth t V_deg 0))
      by field.
    setoid_replace (I_in * (nth t V_init 0 + nth t V_deg' 0) * 130 / 1000)
      with ((13 # 100) * (I_in * nth t V_init 0 + I_in * nth t V_deg' 0))
      by field.
    nra. }
  pose proof (floor_at_delivered_mono Pb Pb' p HP) as Hm.
  apply clamp_at_zero_mono, curve_increasing. nra.
Qed.

(** X5: for an increasing curve, at a step where the cluster is on, the
    correction never raises the current above the BOL current (above 0 when
    the BOL current is negative). *)
Theorem equivalent_current_at_most_bol_current
    (cluster_status : list Z) (power_in_kW V_init V_deg : list Q) (t : nat) :
  length power_in_kW = length cluster_status ->
  length V_init = length cluster_status ->
  length V_deg = length cluster_status ->
  (t < length cluster_status)%nat ->
  nth t cluster_status 0%Z = 1%Z ->
  let I_in := calc_current np_power (nth t power_in_kW 0) T_C (curve_coeff self) in
  0 <= nth t (find_equivalent_input_power_4_deg np_power self cluster_status
                power_in_kW V_init V_deg) 0
  /\ nth t (find_equivalent_input_power_4_deg np_power self cluster_status
              power_in_kW V_init V_deg) 0
     <= Qmax I_in 0.
Proof.
  intros L1 L2 L3 Ht Hon I_in.
  rewrite find_equivalent_input_power_4_deg_nth by assumption. cbv zeta.
  rewrite Hon. change (inject_Z 1) with 1.
  set (p := nth t power_in_kW 0) in *. fold I_in.
  set (Pb := I_in * (nth t V_init 0 + nth t V_deg 0) * N_cells / 1000).
  pose proof (floor_at_delivered_ge Pb p) as Hge.
  set (I_equiv := calc_current np_power _ T_C (curve_coeff self)).
  assert (Hle : I_equiv <= I_in).
  { unfold I_equiv, I_in. apply curve_increasing. lra. }
  destruct (Np.gtb I_equiv 0) eqn:E.
  - apply gtb_true_iff in E. split; [lra|].
    apply Qle_trans with I_in; [exact Hle|apply Q.le_max_l].
  - split; [lra|apply Q.le_max_r].
Qed.

End CorrectionMonotone.

(** The line [current = 4 * power] is increasing. *)
Lemma line_coeff_increasing (x y : Q) :
  x <= y ->
  calc_current lin_power x T_C (curve_coeff one_stack)
  <= calc_current lin_power y T_C (curve_coeff one_stack).
Proof.
  intros H. unfold calc_current, one_stack, new_engine, line_coeff.
  cbn [curve_coeff p1 p2 p3 p4 p5]. lra.
Qed.

(** A witness for X4: 500 kW delivered at 1.9 V, without degradation and
    with 0.1 V of it. *)
Lemma equivalent_current_falls_with_degradation_witness :
  nth 0 (find_equivalent_input_power_4_deg lin_power one_stack [1%Z]
           [500] [1.9] [0.1]) 0
  <= nth 0 (find_equivalent_input_power_4_deg lin_power one_stack [1%Z]
              [500] [1.9] [0]) 0.
Proof.
  apply (equivalent_current_falls_with_degradation lin_power one_stack
           line_coeff_increasing [1%Z] [500] [1.9] [0] [0.1] 0%nat);
    try reflexivity; try discriminate.
  simpl. lia.
Defined.

(** A witness for X5: 500 kW delivered at 1.9 V with 0.1 V of degradation. *)
Lemma equivalent_current_at_most_bol_current_witness :
  0 <= nth 0 (find_equivalent_input_power_4_deg lin_power one_stack [1%Z]
                [500] [1.9] [0.1]) 0
  /\ nth 0 (find_equivalent_input_power_4_deg lin_power one_stack [1%Z]
              [500] [1.9] [0.1]) 0
     <= Qmax (calc_current lin_power (nth 0 [500] 0) T_C (curve_coeff one_stack)) 0.
Proof.
  apply (equivalent_current_at_most_bol_current lin_power one_stack
           line_coeff_increasing [1%Z] [500] [1.9] [0.1] 0%nat);
    try reflexivity.
  simpl. lia.
Defined.

(** ** The size of the degradation *)

Lemma cumsum_from_nonneg (l : list Q) (acc : Q) :
  0 <= acc -> Forall (fun x => 0 <= x) l ->
  Forall (fun x => 0 <= x) (Np.cumsum_from acc l).
Proof.
  revert acc. induction l as [|x l IH]; intros acc Ha Hl; simpl; constructor;
    inversion Hl as [|x' l' Hx Hl']; subst; [lra|].
  apply IH; [lra|assumption].
Qed.

Lemma cumsum_nonneg (l : list Q) :
  Forall (fun x => 0 <= x) l -> Forall (fun x => 0 <= x) (Np.cumsum l).
Proof. apply cumsum_from_nonneg. lra. Qed.

Lemma map2_plus_nonneg (a b : list Q) :
  Forall (fun x => 0 <= x) a -> Forall (fun x => 0 <= x) b ->
  Forall (fun x => 0 <= x) (Np.map2 Qplus a b).
Proof.
  intros Ha. revert b. induction Ha as [|x a Hx Ha IH]; intros b Hb; simpl;
    [constructor|].
  destruct Hb as [|y b Hy Hb]; constructor; [lra|now apply IH].
Qed.

Lemma nth_nonneg (l : list Q) (t : nat) :
  Forall (fun x => 0 <= x) l -> 0 <= nth t l 0.
Proof.
  intros H. destruct (Nat.lt_ge_cases t (length l)) as [Ht|Ht].
  - rewrite Forall_forall in H. apply H, nth_In, Ht.
  - rewrite nth_overflow by exact Ht. lra.
Qed.

Section DegradationSize.

Variable count_cycles : list Q -> list (Q * Q).

Hypothesis count_cycles_nonneg :
  forall series,
    Forall (fun pair => 0 <= fst pair /\ 0 <= snd pair) (count_cycles series).

Lemma rf_track_after_nonneg (voltage_signal : list Q) (k : nat) :
  0 <= rf_track_after count_cycles voltage_signal k.
Proof.
  apply Qle_trans with (rf_track_after count_cycles voltage_signal 0).
  - unfold rf_track_after. simpl. lra.
  - apply rf_track_after_mono; [exact count_cycles_nonneg|lia].
Qed.

Lemma fatigue_loop_nonneg (voltage_signal : list Q) :
  Forall (fun x => 0 <= x) (snd (fatigue_loop count_cycles voltage_signal)).
Proof.
  apply Forall_nth. intros i d Hi.
  rewrite (nth_indep _ d 0) by exact Hi.
  rewrite fatigue_loop_length in Hi. rewrite fatigue_loop_nth by exact Hi.
  apply Qmult_le_0_compat; [apply rf_track_after_nonneg|].
  unfold rate_fatigue. discriminate.
Qed.

(** X6: when [full_degradation] returns (for [dt >= 0], a voltage signal
    without negative samples and a cycle count without negative ranges or
    counts), the degradation signal is never negative, and the final
    voltage of a step is the status-masked input voltage plus the
    degradation, so it is never below the masked input voltage. *)
Theorem full_degradation_adds_non_negative_voltage (self : PEM_H2_Clusters)
    (cluster_status : list Z) (voltage_signal : list Q)
    (voltage_final deg_signal : list Q) (cnt : option (list Z)) (t : nat) :
  0 <= dt self ->
  Forall (fun v => 0 <= v) voltage_signal ->
  full_degradation count_cycles self cluster_status voltage_signal
  = inr (voltage_final, deg_signal, cnt) ->
  0 <= nth t deg_signal 0
  /\ voltage_final
     = Np.map2 Qplus
         (Np.map2 (fun v s => v * inject_Z s) voltage_signal cluster_status)
         deg_signal
  /\ ((t < length cluster_status)%nat ->
      (t < length voltage_signal)%nat ->
      (t < length deg_signal)%nat ->
      nth t voltage_final 0
      == nth t voltage_signal 0 * inject_Z (nth t cluster_status 0%Z)
         + nth t deg_signal 0).
Proof.
  intros Hdt Hv Hfd. unfold full_degradation in Hfd.
  apply bind_inr in Hfd as (V_deg_uptime & Hup & Hfd).
  apply bind_inr in Hfd as (V_fatigue & Hfat & Hfd).
  inversion Hfd; subst; clear Hfd.
  split; [|split; [reflexivity|]].
  - apply nth_nonneg. repeat apply map2_plus_nonneg.
    + apply cumsum_nonneg. destruct (use_uptime_deg self).
      * unfold calc_uptime_degradation in Hup.
        apply bind_inr in Hup as (x & _ & Hup). inversion Hup; subst.
        now apply uptime_increments_nonneg.
      * inversion Hup. apply zeros_nonneg.
    + apply cumsum_nonneg. destruct (use_onoff_deg self).
      * apply calc_onoff_degradation_nonneg.
      * apply zeros_nonneg.
    + destruct (use_fatigue_deg self).
      * apply approx_fatigue_degradation_inr in Hfat. subst.
        apply fatigue_loop_nonneg.
      * inversion Hfat. apply zeros_nonneg.
  - intros H1 H2 H3.
    rewrite (map2_nth _ _ _ _ 0 0); [|rewrite map2_length; lia|exact H3].
    rewrite (map2_nth _ _ _ _ 0 0%Z) by assumption. reflexivity.
Qed.

End DegradationSize.

(** A witness for X6: three hourly steps, the cluster off in the second. *)
Lemma full_degradation_adds_non_negative_voltage_witness :
  exists voltage_final deg_signal cnt,
    full_degradation half_cycles one_stack [1; 0; 1]%Z [1.9; 1.8; 2]
    = inr (voltage_final, deg_signal, cnt)
    /\ 0 <= nth 2 deg_signal 0.
Proof.
  destruct (full_degradation half_cycles one_stack [1; 0; 1]%Z [1.9; 1.8; 2])
    as [e|[[voltage_final deg_signal] cnt]] eqn:E.
  - exfalso. vm_compute in E. discriminate.
  - exists voltage_final, deg_signal, cnt. split; [reflexivity|].
    apply (full_degradation_adds_non_negative_voltage half_cycles
             half_cycles_nonneg one_stack [1; 0; 1]%Z [1.9; 1.8; 2]
             voltage_final deg_signal cnt 2).
    + discriminate.
    + repeat (apply Forall_cons; [discriminate|]). apply Forall_nil.
    + exact E.
Defined.

(** ** The fatigue series *)

(** X7: whenever [approx_fatigue_degradation] returns, the series it
    returns has the length of the voltage signal and is constant over every
    window of 168 steps, at [rate_fatigue] times the running total of the
    window sums up to and including that window, whatever the cycle count
    returned for the windows. *)
Theorem approx_fatigue_degradation_is_weekly_step_function
    (count_cycles : list Q -> list (Q * Q))
    (voltage_signal V_fatigue_ts : list Q) :
  approx_fatigue_degradation count_cycles voltage_signal = inr V_fatigue_ts ->
  length V_fatigue_ts = length voltage_signal
  /\ (forall i j,
         (i < length voltage_signal)%nat ->
         (j < length voltage_signal)%nat ->
         (i / 168 = j / 168)%nat ->
         nth i V_fatigue_ts 0 = nth j V_fatigue_ts 0)
  /\ (forall j,
         (j < length voltage_signal)%nat ->
         nth j V_fatigue_ts 0
         = rf_track_after count_cycles voltage_signal (S (j / 168))
           * rate_fatigue).
Proof.
  intros H. apply approx_fatigue_degradation_inr in H. subst V_fatigue_ts.
  split; [apply fatigue_loop_length|]. split.
  - intros i j Hi Hj Hij. rewrite !fatigue_loop_nth by assumption.
    now rewrite Hij.
  - intros j Hj. now apply fatigue_loop_nth.
Qed.

(** A witness for X7: three samples, 2 V, 2.5 V and 3 V. *)
Lemma approx_fatigue_degradation_is_weekly_step_function_witness :
  exists V_fatigue_ts,
    approx_fatigue_degradation half_cycles [2; 2.5; 3] = inr V_fatigue_ts
    /\ length V_fatigue_ts = length [2; 2.5; 3]
    /\ (forall i j,
           (i < length [2; 2.5; 3]%Q)%nat ->
           (j < length [2; 2.5; 3]%Q)%nat ->
           (i / 168 = j / 168)%nat ->
           nth i V_fatigue_ts 0 = nth j V_fatigue_ts 0)
    /\ (forall j,
           (j < length [2; 2.5; 3]%Q)%nat ->
           nth j V_fatigue_ts 0
           = rf_track_after half_cycles [2; 2.5; 3] (S (j / 168))
             * rate_fatigue).
Proof.
  destruct (approx_fatigue_degradation half_cycles [2; 2.5; 3])
    as [e|V_fatigue_ts] eqn:E.
  - exfalso. vm_compute in E. discriminate.
  - exists V_fatigue_ts. split; [reflexivity|].
    exact (approx_fatigue_degradation_is_weekly_step_function
             half_cycles [2; 2.5; 3] V_fatigue_ts E).
Defined.

(** ** Stack replacement *)

Lemma last_elem_app {A} (l : list A) (x : A) : last_elem (l ++ [x]) = inr x.
Proof.
  unfold last_elem, Np.last_opt. destruct l as [|y l]; [reflexivity|].
  change ((y :: l) ++ [x]) with (y :: (l ++ [x])). cbv iota.
  now rewrite last_last.
Qed.

Lemma np_divide_nonzero (x y : Q) : ~ y == 0 -> np_divide x y = Fin (x / y).
Proof.
  intros H. unfold np_divide.
  destruct (Qeq_bool y 0) eqn:E; [|reflexivity].
  apply Qeq_bool_iff in E. contradiction.
Qed.

Lemma Qeq_bool_false_iff (x y : Q) : Qeq_bool x y = false <-> ~ x == y.
Proof.
  rewrite <- Qeq_bool_iff. destruct (Qeq_bool x y); split; congruence.
Qed.

(** X8: [calc_stack_replacement_info] fails with an index error on an empty
    degradation signal.  When the last degradation value [d] is not zero, the
    time between replacements is the linear extrapolation
    [(d_eol / d) * (steps * dt / 3600)] hours and the replacement count is
    the plant life in hours divided by it; when the last value is zero
    (and [d_eol], [dt] are not), the time is infinite and the count is 0. *)
Theorem calc_stack_replacement_info_extrapolates (self : PEM_H2_Clusters)
    (deg_signal : list Q) (d : Q) :
  let t_sim_hrs :=
    inject_Z (Z.of_nat (length (deg_signal ++ [d]))) * dt self / 3600 in
  calc_stack_replacement_info self [] = inl IndexError
  /\ (~ d == 0 ->
      calc_stack_replacement_info self (deg_signal ++ [d])
      = inr (np_divide (plant_life_years self * 8760)
                       (d_eol self / d * t_sim_hrs),
             Fin (d_eol self / d * t_sim_hrs)))
  /\ (d == 0 -> ~ d_eol self == 0 -> ~ dt self == 0 ->
      calc_stack_replacement_info self (deg_signal ++ [d])
      = inr (Fin 0, Inf)).
Proof.
  intros t_sim_hrs. split; [reflexivity|].
  unfold calc_stack_replacement_info. rewrite last_elem_app. cbn [bind ret].
  fold t_sim_hrs. split.
  - intros Hd. rewrite (np_divide_nonzero (d_eol self) d Hd). reflexivity.
  - intros Hd He Hdt.
    destruct (np_divide_by_zero (d_eol self) d Hd) as (_ & _ & Hinf).
    rewrite (Hinf He). cbn [npf_mul].
    assert (Ht : Qeq_bool t_sim_hrs 0 = false).
    { apply Qeq_bool_false_iff. unfold t_sim_hrs. intros H.
      assert (Hn : ~ inject_Z (Z.of_nat (length (deg_signal ++ [d]))) == 0).
      { rewrite length_app. simpl length.
        change 0 with (inject_Z 0). rewrite inject_Z_injective. lia. }
      apply Hn. apply Qmult_integral_l with (dt self * / 3600).
      - intros H'. apply Qmult_integral in H'. destruct H' as [H'|H'];
          [contradiction|discriminate].
      - rewrite <- H. unfold Qdiv. ring. }
    rewrite Ht. reflexivity.
Qed.

(** ** What [run] returns *)

Lemma fold_plus_shift (l : list Q) (acc : Q) :
  fold_left Qplus l acc == acc + fold_left Qplus l 0.
Proof.
  revert acc. induction l as [|x l IH]; intros acc; simpl; [ring|].
  rewrite (IH (acc + x)), (IH (0 + x)). ring.
Qed.

Lemma sum_cons (x : Q) (l : list Q) : Np.sum (x :: l) == x + Np.sum l.
Proof. unfold Np.sum. simpl. rewrite fold_plus_shift. ring. Qed.

Lemma fold_add_shift (l : list Z) (acc : Z) :
  fold_left Z.add l acc = (acc + fold_left Z.add l 0)%Z.
Proof.
  revert acc. induction l as [|x l IH]; intros acc; simpl; [lia|].
  rewrite (IH (acc + x)%Z), (IH x). lia.
Qed.

(** The steps at which the status is on, counted through the sum [run]
    takes. *)
Lemma uptime_sum (dt : Q) (cluster_status : list Z) :
  Forall (fun s => s = 0%Z \/ s = 1%Z) cluster_status ->
  Np.sum (map (fun s => inject_Z s * dt) cluster_status)
  == inject_Z (Z.of_nat (on_steps cluster_status)) * dt.
Proof.
  induction 1 as [|s l Hs Hl IH]; [reflexivity|].
  cbn [map]. rewrite sum_cons, IH. unfold on_steps. cbn [filter].
  destruct Hs as [Hs|Hs]; subst s.
  - change (0 =? 1)%Z with false. cbv iota. change (inject_Z 0) with 0. ring.
  - change (1 =? 1)%Z with true. cbv iota.
    change (length (1%Z :: filter (fun s => (s =? 1)%Z) l))
      with (S (length (filter (fun s => (s =? 1)%Z) l))).
    rewrite Nat2Z.inj_succ, <- Z.add_1_l, inject_Z_plus.
    change (inject_Z 1) with 1. ring.
Qed.

Lemma firstn_snoc {A} (l : list A) (t : nat) (d : A) :
  (t < length l)%nat -> firstn (S t) l = firstn t l ++ [nth t l d].
Proof.
  revert t. induction l as [|x l IH]; intros t H; simpl in H; [lia|].
  destruct t as [|t]; [reflexivity|].
  cbn [firstn nth app]. f_equal. apply IH. lia.
Qed.

(** The off-transitions of a status series, counted through the sum [run]
    takes over [off_cycle_cnt]. *)
Lemma off_cycle_cnt_prefix_sum (cluster_status : list Z) (t : nat) :
  Forall (fun s => s = 0%Z \/ s = 1%Z) cluster_status ->
  (t < length cluster_status)%nat ->
  fold_left Z.add (firstn (S t) (off_cycle_cnt cluster_status)) 0%Z
  = off_transitions_upto cluster_status t.
Proof.
  intros Hb Ht.
  assert (Hne : cluster_status <> [])
    by (destruct cluster_status; simpl in *; [lia|congruence]).
  induction t as [|t IH].
  - reflexivity.
  - assert (Hlen : (S t < length (off_cycle_cnt cluster_status))%nat)
      by (rewrite off_cycle_cnt_length; assumption).
    rewrite (firstn_snoc _ _ 0%Z) by exact Hlen.
    rewrite fold_left_app. cbn [fold_left].
    rewrite IH by lia. rewrite off_cycle_cnt_nth by assumption.
    now rewrite off_transitions_upto_S.
Qed.

Section SimulationOutputs.

Variable np_log : Q -> Q.
Variable np_sqrt : Q -> Q.
Variable np_exp : Q -> Q.
Variable np_arcsinh : Q -> Q.
Variable np_power : Q -> Q -> Q.
Variable count_cycles : list Q -> list (Q * Q).

Local Abbreviation run_ :=
  (run np_log np_sqrt np_exp np_arcsinh np_power count_cycles).
Local Abbreviation run_branch_ :=
  (run_branch np_log np_sqrt np_exp np_arcsinh np_power count_cycles).
Local Abbreviation cell_design_ :=
  (cell_design np_log np_sqrt np_exp np_arcsinh np_power).

(** What the branch with the degradation penalty leaves behind. *)
Lemma run_branch_inr_fields (self : PEM_H2_Clusters) (cluster_status : list Z)
    (power_per_stack stack_current : list Q) (b : branch_state) :
  run_branch_ self cluster_status power_per_stack stack_current = inr b ->
  let V_init := map (cell_design_ T_C) stack_current in
  exists voltage_final,
    full_degradation count_cycles self cluster_status V_init
    = inr (voltage_final, b_deg_signal b, b_off_cycle_cnt b)
    /\ calc_stack_replacement_info self (b_deg_signal b)
       = inr (b_nsr_life b, b_time_between_replacements b)
    /\ b_V_init b = V_init
    /\ b_stack_current b
       = find_equivalent_input_power_4_deg np_power self cluster_status
           power_per_stack V_init (b_deg_signal b)
    /\ b_V_cell b
       = Np.map2 Qplus (map (cell_design_ T_C) (b_stack_current b))
                 (b_deg_signal b).
Proof.
  intros H V_init. unfold run_branch in H.
  destruct (include_deg_penalty self); [|discriminate].
  apply bind_inr in H as ([[V_cell_deg deg_signal] cnt] & Hfd & H).
  apply bind_inr in H as ([nsr_life tbr] & Hrep & H).
  inversion H; subst; clear H. cbn.
  exists V_cell_deg. repeat split; assumption.
Qed.

(** The remaining entries of the two bundles. *)
Lemma run_inr_outputs (self : PEM_H2_Clusters) (input_external_power_kw : list Q)
    (res : h2_results) (agg : h2_results_aggregates) :
  run_ self input_external_power_kw = inr (res, agg) ->
  let input_power_kw := fst (external_power_supply self input_external_power_kw) in
  let cluster_status := system_design input_power_kw (max_stacks self) in
  exists b cnt,
    run_branch_ self cluster_status (Power_Per_Stack_kW res)
                (map (fun p => calc_current np_power p T_C (curve_coeff self))
                     (Power_Per_Stack_kW res)) = inr b
    /\ b_off_cycle_cnt b = Some cnt
    /\ Input_Power_kWh res = input_external_power_kw
    /\ Stack_Current_A res = b_stack_current b
    /\ V_cell_No_Deg res = b_V_init b
    /\ V_cell_With_Deg res = b_V_cell b
    /\ System_Degradation_V res = b_deg_signal b
    /\ water_hourly_usage_gal res = water_supply (hydrogen_hourly_production res)
    /\ water_hourly_usage_kg res
       = map (fun w => w * 3.79) (water_hourly_usage_gal res)
    /\ electrolyzer_total_efficiency_perc res
       = system_efficiency self (Stacks_on res) input_power_kw (Stack_Current_A res)
    /\ Power_Consumed_kWh res
       = Np.map2 Qmult (Stacks_on res)
           (Np.map2 (fun i v => (i * v * N_cells) / 1000)
                    (Stack_Current_A res) (V_cell_With_Deg res))
    /\ Total_Off_Cycles agg = fold_left Z.add cnt 0%Z
    /\ last_elem (b_deg_signal b) = inr (Final_Degradation_V agg)
    /\ Total_Uptime_sec agg
       = Np.sum (map (fun s => inject_Z s * dt self) cluster_status)
    /\ Total_H2_Production_kg agg = Np.sum (hydrogen_hourly_production res)
    /\ Total_Input_Power_kWh agg = Np.sum input_external_power_kw
    /\ Total_kWh_per_kg agg
       = np_divide (Np.sum input_external_power_kw)
                   (Np.sum (hydrogen_hourly_production res))
    /\ Avg_hrs_until_Replacement_Per_Stack agg = b_time_between_replacements b
    /\ Number_of_Lifetime_Cluster_Replacements agg = b_nsr_life b.
Proof.
  intros H input_power_kw cluster_status. unfold run in H.
  destruct (Qeq_bool (dt self) 0) eqn:Edt; [discriminate|].
  fold input_power_kw in H. fold cluster_status in H.
  apply bind_inr in H as (cycling & Hcyc & H).
  apply bind_inr in H as (b & Hb & H).
  destruct (rated_h2_prod np_log np_sqrt np_exp np_arcsinh np_power self)
    as [p_consumed_max rated_h2_hr].
  apply bind_inr in H as (cnt & Hcnt & H).
  apply bind_inr in H as (final_deg & Hfin & H).
  inversion H; subst; clear H. cbn.
  exists b, cnt. repeat split; try reflexivity; try assumption.
  destruct (b_off_cycle_cnt b); [now inversion Hcnt|discriminate].
Qed.

(** The lengths of the arrays of a run that returns. *)
Lemma run_inr_lengths (self : PEM_H2_Clusters) (input_external_power_kw : list Q)
    (res : h2_results) (agg : h2_results_aggregates) :
  run_ self input_external_power_kw = inr (res, agg) ->
  let n := length input_external_power_kw in
  length (fst (external_power_supply self input_external_power_kw)) = n
  /\ length (system_design (fst (external_power_supply self input_external_power_kw))
                           (max_stacks self)) = n
  /\ length (Stacks_on res) = n
  /\ length (Power_Per_Stack_kW res) = n
  /\ length (Stack_Current_A res) = n
  /\ length (System_Degradation_V res) = n
  /\ length (hydrogen_production_no_startup_time res) = n
  /\ length (hydrogen_hourly_production res) = n.
Proof.
  intros Hrun n.
  destruct (run_inr_outputs _ _ _ _ Hrun)
    as (b & cnt & Hb & _ & _ & Hsc & _ & _ & Hdeg & _).
  destruct (run_inr _ _ _ _ _ _ _ _ _ _ Hrun)
    as (_ & Hne & _ & Hst & Hpps & Lsc & Hno & Hh2 & _).
  set (input_power_kw := fst (external_power_supply self input_external_power_kw)) in *.
  set (cluster_status := system_design input_power_kw (max_stacks self)) in *.
  assert (Li : length input_power_kw = n) by apply external_power_supply_length.
  assert (Ls : length cluster_status = n)
    by (unfold cluster_status; now rewrite system_design_length).
  assert (Lst : length (Stacks_on res) = n) by (rewrite Hst, length_map; exact Ls).
  assert (Lp : length (Power_Per_Stack_kW res) = n).
  { rewrite Hpps. unfold power_per_stack. rewrite map2_length. lia. }
  assert (Lno : length (hydrogen_production_no_startup_time res) = n)
    by (rewrite Hno, map2_length; lia).
  assert (Lm : length (h2_multiplier (1 - startup_time / dt self)
                         (nth 0 cluster_status 0%Z :: Np.diff cluster_status)) = n).
  { unfold h2_multiplier. rewrite length_map. simpl. rewrite diff_length.
    destruct input_external_power_kw; [congruence|]. simpl in *. lia. }
  assert (Ld : length (System_Degradation_V res) = n).
  { rewrite Hdeg. apply run_branch_inr in Hb as (_ & _ & Ld).
    - now rewrite Ld.
    - apply (nonempty_of_length _ input_external_power_kw); assumption.
    - now rewrite Lp.
    - now rewrite length_map, Lp. }
  repeat split; try assumption.
  rewrite Hh2, map2_length. lia.
Qed.

(** X9: every time series of the bundle a run returns has one entry per
    step of the input series. *)
Theorem run_series_have_input_length (self : PEM_H2_Clusters)
    (input_external_power_kw : list Q)
    (res : h2_results) (agg : h2_results_aggregates) :
  run_ self input_external_power_kw = inr (res, agg) ->
  let n := length input_external_power_kw in
  length (Input_Power_kWh res) = n
  /\ length (hydrogen_production_no_startup_time res) = n
  /\ length (hydrogen_hourly_production res) = n
  /\ length (water_hourly_usage_gal res) = n
  /\ length (water_hourly_usage_kg res) = n
  /\ length (electrolyzer_total_efficiency_perc res) = n
  /\ length (kwh_per_kgH2 res) = n
  /\ length (Power_Consumed_kWh res) = n
  /\ length (Stacks_on res) = n
  /\ length (Power_Per_Stack_kW res) = n
  /\ length (Stack_Current_A res) = n
  /\ length (V_cell_No_Deg res) = n
  /\ length (V_cell_With_Deg res) = n
  /\ length (System_Degradation_V res) = n.
Proof.
  intros Hrun n.
  destruct (run_inr_lengths _ _ _ _ Hrun)
    as (Li & Ls & Lst & Lp & Lsc & Ld & Lno & Lh).
  destruct (run_inr_outputs _ _ _ _ Hrun)
    as (b & cnt & Hb & _ & Hin & Hsc & Hvi & Hvc & Hdeg & Hgal & Hkg & Heff
        & Hpc & _).
  destruct (run_inr _ _ _ _ _ _ _ _ _ _ Hrun) as (_ & _ & _ & _ & _ & _ & _ & _ & Hk).
  destruct (run_branch_inr_fields _ _ _ _ _ Hb) as (vf & _ & _ & HVi & _ & HVc).
  fold n in Li, Ls, Lst, Lp, Lsc, Ld, Lno, Lh.
  assert (Lvc : length (V_cell_With_Deg res) = n).
  { rewrite Hvc, HVc, map2_length, length_map, <- Hsc, <- Hdeg. lia. }
  assert (Lgal : length (water_hourly_usage_gal res) = n).
  { rewrite Hgal. unfold water_supply. now rewrite !length_map. }
  repeat split; try assumption.
  - now rewrite Hin.
  - now rewrite Hkg, length_map.
  - rewrite Heff. unfold system_efficiency. rewrite !map2_length. lia.
  - rewrite Hk, map2_length. lia.
  - rewrite Hpc, !map2_length. lia.
  - now rewrite Hvi, HVi, !length_map.
Qed.

(** X10: when [run] returns, the number of stacks on at a step is
    [max_stacks] times the 0/1 status of the step: zero when the power
    handed on is below [0.1 * max_stacks], and [max_stacks] otherwise. *)
Theorem run_stacks_on_all_or_nothing (self : PEM_H2_Clusters)
    (input_external_power_kw : list Q)
    (res : h2_results) (agg : h2_results_aggregates) (t : nat) :
  run_ self input_external_power_kw = inr (res, agg) ->
  (t < length input_external_power_kw)%nat ->
  let input_power_kw := fst (external_power_supply self input_external_power_kw) in
  (nth t input_power_kw 0 < 0.1 * max_stacks self ->
   nth t (Stacks_on res) 0 == 0)
  /\ (0.1 * max_stacks self <= nth t input_power_kw 0 ->
      nth t (Stacks_on res) 0 == max_stacks self).
Proof.
  intros Hrun Ht input_power_kw.
  destruct (run_inr _ _ _ _ _ _ _ _ _ _ Hrun) as (_ & _ & _ & Hst & _).
  fold input_power_kw in Hst. rewrite Hst.
  assert (Ls : (t < length (system_design input_power_kw (max_stacks self)))%nat).
  { unfold input_power_kw.
    now rewrite system_design_length, external_power_supply_length. }
  rewrite (map_nth_in _ _ _ 0%Z) by exact Ls.
  rewrite system_design_nth
    by (unfold input_power_kw; now rewrite external_power_supply_length).
  split; intros H.
  - apply ltb_true_iff in H. rewrite H. change (inject_Z 0) with 0. ring.
  - apply ltb_false_iff in H. rewrite H. change (inject_Z 1) with 1. ring.
Qed.

Lemma clamped_power_at_most_cap (self : PEM_H2_Clusters)
    (input_external_power_kw : list Q) (t : nat) :
  (t < length input_external_power_kw)%nat ->
  nth t (fst (external_power_supply self input_external_power_kw)) 0
  <= max_stacks self * stack_rating_kW.
Proof.
  intros Ht. unfold external_power_supply. cbn [fst].
  rewrite (map_nth_in _ _ _ 0) by exact Ht.
  destruct (Np.gtb _ _) eqn:E; [lra|]. now apply gtb_false_iff in E.
Qed.

(** X11: when [run] returns, the power per stack of every step lies between
    0 and the stack rating of 1000 kW, whatever the input series holds
    (negative or oversized values included), and at a step with stacks on it
    is the power handed on divided by their number. *)
Theorem run_power_per_stack_within_rating (self : PEM_H2_Clusters)
    (input_external_power_kw : list Q)
    (res : h2_results) (agg : h2_results_aggregates) (t : nat) :
  run_ self input_external_power_kw = inr (res, agg) ->
  (t < length input_external_power_kw)%nat ->
  (0 <= nth t (Power_Per_Stack_kW res) 0
   /\ nth t (Power_Per_Stack_kW res) 0 <= stack_rating_kW)
  /\ (0 < nth t (Stacks_on res) 0 ->
      nth t (Power_Per_Stack_kW res) 0 * nth t (Stacks_on res) 0
      == nth t (fst (external_power_supply self input_external_power_kw)) 0).
Proof.
  intros Hrun Ht.
  destruct (run_inr_lengths _ _ _ _ Hrun) as (Li & Ls & Lst & _).
  destruct (run_inr _ _ _ _ _ _ _ _ _ _ Hrun) as (_ & _ & _ & Hst & Hpps & _).
  pose proof (clamped_power_at_most_cap self input_external_power_kw t Ht) as Hcap.
  set (input_power_kw := fst (external_power_supply self input_external_power_kw)) in *.
  set (cluster_status := system_design input_power_kw (max_stacks self)) in *.
  rewrite Hpps. unfold power_per_stack.
  rewrite (map2_nth _ _ _ _ 0 0) by lia.
  assert (Hn : nth t (Stacks_on res) 0
               = max_stacks self * inject_Z (nth t cluster_status 0%Z)).
  { rewrite Hst. now rewrite (map_nth_in _ _ _ 0%Z) by lia. }
  assert (Hs : nth t cluster_status 0%Z
               = if Np.ltb (nth t input_power_kw 0) (0.1 * max_stacks self)
                 then 0%Z else 1%Z).
  { unfold cluster_status. apply system_design_nth. lia. }
  set (p := nth t input_power_kw 0) in *.
  set (n := nth t (Stacks_on res) 0) in *.
  destruct (Np.gtb n 0) eqn:G.
  - apply gtb_true_iff in G.
    destruct (Np.ltb p (0.1 * max_stacks self)) eqn:E.
    { rewrite Hs in Hn. change (inject_Z 0) with 0 in Hn.
      exfalso. rewrite Hn in G. lra. }
    apply ltb_false_iff in E. rewrite Hs in Hn.
    change (inject_Z 1) with 1 in Hn.
    assert (Hnm : n == max_stacks self) by (rewrite Hn; ring).
    unfold stack_rating_kW in *.
    split; [split|].
    + apply Qle_shift_div_l; lra.
    + apply Qle_shift_div_r; lra.
    + intros _. field. lra.
  - apply gtb_false_iff in G. unfold stack_rating_kW.
    split; [split; lra|]. intros H. lra.
Qed.

Lemma find_equivalent_input_power_4_deg_nonneg (self : PEM_H2_Clusters)
    (cluster_status : list Z) (power_in_kW V_init V_deg : list Q) :
  Forall (fun i => 0 <= i)
    (find_equivalent_input_power_4_deg np_power self cluster_status
       power_in_kW V_init V_deg).
Proof.
  unfold find_equivalent_input_power_4_deg. apply Forall_map, Forall_forall.
  intros i _. destruct (Np.gtb i 0) eqn:E; [apply gtb_true_iff in E|]; lra.
Qed.

Lemma startup_ratio_range (dt : Q) :
  600 <= dt -> 0 <= 1 - startup_time / dt /\ 1 - startup_time / dt <= 1.
Proof.
  intros H. unfold startup_time.
  assert (H1 : 600 / dt <= 1) by (apply Qle_shift_div_r; lra).
  assert (H0 : 0 <= 600 / dt) by (apply Qle_shift_div_l; lra).
  split; lra.
Qed.

(** X12: when [run] returns, the stack current it reports is never
    negative; for a non-negative stack count and a timestep of at least the
    start-up time of 600 s, the hydrogen production of every step is never
    negative either, and the production with start-up loss never exceeds the
    production without it. *)
Theorem run_hydrogen_never_negative (self : PEM_H2_Clusters)
    (input_external_power_kw : list Q)
    (res : h2_results) (agg : h2_results_aggregates) (t : nat) :
  run_ self input_external_power_kw = inr (res, agg) ->
  0 <= nth t (Stack_Current_A res) 0
  /\ (0 <= max_stacks self -> 600 <= dt self ->
      0 <= nth t (hydrogen_hourly_production res) 0
      /\ nth t (hydrogen_hourly_production res) 0
         <= nth t (hydrogen_production_no_startup_time res) 0).
Proof.
  intros Hrun.
  destruct (run_inr_lengths _ _ _ _ Hrun)
    as (Li & Ls & Lst & Lp & Lsc & Ld & Lno & Lh).
  destruct (run_inr_outputs _ _ _ _ Hrun)
    as (b & cnt & Hb & _ & _ & Hsc & _).
  destruct (run_inr _ _ _ _ _ _ _ _ _ _ Hrun)
    as (_ & _ & _ & Hst & _ & _ & Hno & Hh2 & _).
  destruct (run_branch_inr_fields _ _ _ _ _ Hb) as (vf & _ & _ & _ & HI & _).
  assert (HIn : 0 <= nth t (Stack_Current_A res) 0).
  { apply nth_nonneg. rewrite Hsc, HI.
    apply find_equivalent_input_power_4_deg_nonneg. }
  split; [exact HIn|]. intros Hms Hdt.
  destruct (Nat.lt_ge_cases t (length input_external_power_kw)) as [Ht|Ht].
  2:{ rewrite !nth_overflow by lia. split; lra. }
  set (input_power_kw := fst (external_power_supply self input_external_power_kw)) in *.
  set (cluster_status := system_design input_power_kw (max_stacks self)) in *.
  assert (Hn0 : 0 <= nth t (Stacks_on res) 0).
  { rewrite Hst. rewrite (map_nth_in _ _ _ 0%Z) by lia.
    destruct (binary_nth cluster_status t) as [E|E];
      [apply system_design_binary|lia| |]; rewrite E.
    - change (inject_Z 0) with 0. lra.
    - change (inject_Z 1) with 1. lra. }
  assert (Hno0 : 0 <= nth t (hydrogen_production_no_startup_time res) 0).
  { rewrite Hno. rewrite (map2_nth _ _ _ _ 0 0) by lia.
    apply (h2_production_rate_mono self _ (nth t (Stack_Current_A res) 0));
      try assumption; lra. }
  rewrite Hh2 at 1 2. rewrite (map2_nth _ _ _ _ 0 0);
    [|lia|unfold h2_multiplier; rewrite length_map; simpl;
          rewrite diff_length; lia].
  rewrite h2_multiplier_nth; [|apply system_design_binary|lia].
  destruct (startup_ratio_range (dt self) Hdt) as [R0 R1].
  set (h := nth t (hydrogen_production_no_startup_time res) 0) in *.
  destruct (starts_up cluster_status t).
  - split; [now apply Qmult_le_0_compat|]. nra.
  - split; lra.
Qed.

(** X13: when [run] returns, the water usage of every step is ten times the
    hydrogen production in kg, and that mass divided by 3.79 in gallons. *)
Theorem run_water_is_ten_times_hydrogen (self : PEM_H2_Clusters)
    (input_external_power_kw : list Q)
    (res : h2_results) (agg : h2_results_aggregates) (t : nat) :
  run_ self input_external_power_kw = inr (res, agg) ->
  nth t (water_hourly_usage_kg res) 0
  == 10 * nth t (hydrogen_hourly_production res) 0
  /\ nth t (water_hourly_usage_gal res) 0
     == 10 * nth t (hydrogen_hourly_production res) 0 / 3.79.
Proof.
  intros Hrun.
  destruct (run_inr_outputs _ _ _ _ Hrun)
    as (b & cnt & _ & _ & _ & _ & _ & _ & _ & Hgal & Hkg & _).
  rewrite Hkg, Hgal. unfold water_supply.
  destruct (Nat.lt_ge_cases t (length (hydrogen_hourly_production res)))
    as [Ht|Ht].
  - rewrite !(map_nth_in _ _ _ 0) by (rewrite ?length_map; exact Ht).
    split; field.
  - rewrite !nth_overflow by (rewrite ?length_map; exact Ht). split; field.
Qed.

(** X14: when [run] returns, the efficiency it reports at a step where the
    power handed on is zero is the quotient by that zero: [nan] or [inf],
    never a finite number. *)
Theorem run_efficiency_undefined_at_zero_power (self : PEM_H2_Clusters)
    (input_external_power_kw : list Q)
    (res : h2_results) (agg : h2_results_aggregates) (t : nat) :
  run_ self input_external_power_kw = inr (res, agg) ->
  (t < length input_external_power_kw)%nat ->
  nth t (fst (external_power_supply self input_external_power_kw)) 0 == 0 ->
  is_finite (nth t (electrolyzer_total_efficiency_perc res) (Fin 0)) = false.
Proof.
  intros Hrun Ht Hz.
  destruct (run_inr_lengths _ _ _ _ Hrun)
    as (Li & Ls & Lst & Lp & Lsc & Ld & Lno & Lh).
  destruct (run_inr_outputs _ _ _ _ Hrun)
    as (b & cnt & _ & _ & _ & _ & _ & _ & _ & _ & _ & Heff & _).
  rewrite Heff. unfold system_efficiency.
  rewrite (map2_nth _ _ _ _ 0 0) by (rewrite ?map2_length; lia).
  now destruct (np_divide_by_zero
                  (39.41 * nth t (Np.map2 (h2_production_rate self)
                                    (Stack_Current_A res) (Stacks_on res)) 0)
                  _ Hz) as (H & _).
Qed.

Lemma last_elem_nth (l : list Q) (x : Q) :
  last_elem l = inr x -> x = nth (length l - 1) l 0.
Proof.
  intros H. destruct l as [|y l0]; [discriminate|].
  destruct (exists_last (l := y :: l0)) as (l' & a & E); [discriminate|].
  rewrite E in *. rewrite last_elem_app in H. inversion H.
  rewrite length_app. cbn [length]. rewrite app_nth2 by lia.
  replace (length l' + 1 - 1 - length l')%nat with 0%nat by lia. reflexivity.
Qed.

(** X15: when [run] returns on an engine whose cycling mechanism is on
    ([use_onoff_deg], as [__init__] leaves it, so that this call writes
    [off_cycle_cnt]), the total of off-cycles it reports is the number of
    1-to-0 transitions of the status series, the total uptime is the number
    of steps with the cluster on times [dt], and the final degradation is
    the last entry of the degradation series. *)
Theorem run_totals_count_the_status_series (self : PEM_H2_Clusters)
    (input_external_power_kw : list Q)
    (res : h2_results) (agg : h2_results_aggregates) :
  run_ self input_external_power_kw = inr (res, agg) ->
  use_onoff_deg self = true ->
  let cluster_status :=
    system_design (fst (external_power_supply self input_external_power_kw))
                  (max_stacks self) in
  Total_Off_Cycles agg
  = off_transitions_upto cluster_status (length input_external_power_kw - 1)
  /\ Total_Uptime_sec agg == inject_Z (Z.of_nat (on_steps cluster_status)) * dt self
  /\ Final_Degradation_V agg
     = nth (length input_external_power_kw - 1) (System_Degradation_V res) 0.
Proof.
  intros Hrun Hon cluster_status.
  destruct (run_inr_lengths _ _ _ _ Hrun) as (Li & Ls & _ & Lp & _ & Ld & _).
  destruct (run_inr_outputs _ _ _ _ Hrun)
    as (b & cnt & Hb & Hcnt & _ & _ & _ & _ & Hdeg & _ & _ & _ & _ & Hoff
        & Hfin & Hup & _).
  destruct (run_inr _ _ _ _ _ _ _ _ _ _ Hrun) as (_ & Hne & _).
  fold cluster_status in Hb, Hup, Ls.
  assert (Hsne : cluster_status <> [])
    by now apply (nonempty_of_length _ input_external_power_kw).
  assert (Hb' := Hb).
  destruct (run_branch_inr_fields _ _ _ _ _ Hb) as (vf & Hfd & _).
  apply full_degradation_inr_length in Hfd as [_ Hc];
    [|assumption|now rewrite !length_map, Lp].
  split; [|split].
  - rewrite Hoff. rewrite Hcnt, Hon in Hc. inversion Hc; subst cnt.
    rewrite <- (off_cycle_cnt_prefix_sum cluster_status
                  (length input_external_power_kw - 1));
      [|apply system_design_binary
       |destruct input_external_power_kw; [congruence|simpl in *; lia]].
    replace (S (length input_external_power_kw - 1))
      with (length (off_cycle_cnt cluster_status)).
    + now rewrite firstn_all.
    + rewrite off_cycle_cnt_length by assumption.
      destruct input_external_power_kw; [congruence|simpl in *; lia].
  - rewrite Hup. apply uptime_sum, system_design_binary.
  - rewrite Hdeg, <- Ld, Hdeg. now apply last_elem_nth.
Qed.

Lemma calc_stack_replacement_info_inr (self : PEM_H2_Clusters)
    (deg_signal : list Q) (nsr tbr : npfloat) :
  calc_stack_replacement_info self deg_signal = inr (nsr, tbr) ->
  exists d_sim,
    last_elem deg_signal = inr d_sim
    /\ tbr = npf_mul (np_divide (d_eol self) d_sim)
                     (Fin (inject_Z (Z.of_nat (length deg_signal)) * dt self
                           / 3600))
    /\ nsr = npf_div (Fin (plant_life_years self * 8760)) tbr.
Proof.
  unfold calc_stack_replacement_info. intros H.
  apply bind_inr in H as (d_sim & Hd & H). inversion H. eauto.
Qed.

(** X16: when [run] returns with a final degradation that is not zero, the
    hours until replacement it reports are the linear extrapolation
    [(d_eol / final degradation) * (steps * dt / 3600)], and the number of
    lifetime replacements is the plant life in hours divided by them. *)
Theorem run_replacement_schedule (self : PEM_H2_Clusters)
    (input_external_power_kw : list Q)
    (res : h2_results) (agg : h2_results_aggregates) :
  run_ self input_external_power_kw = inr (res, agg) ->
  ~ Final_Degradation_V agg == 0 ->
  let t_eod :=
    d_eol self / Final_Degradation_V agg
    * (inject_Z (Z.of_nat (length input_external_power_kw)) * dt self / 3600) in
  Avg_hrs_until_Replacement_Per_Stack agg = Fin t_eod
  /\ Number_of_Lifetime_Cluster_Replacements agg
     = np_divide (plant_life_years self * 8760) t_eod.
Proof.
  intros Hrun Hnz t_eod.
  destruct (run_inr_lengths _ _ _ _ Hrun) as (_ & _ & _ & _ & _ & Ld & _).
  destruct (run_inr_outputs _ _ _ _ Hrun)
    as (b & cnt & Hb & _ & _ & _ & _ & _ & Hdeg & _ & _ & _ & _ & _
        & Hfin & _ & _ & _ & _ & Havg & Hnum).
  destruct (run_branch_inr_fields _ _ _ _ _ Hb) as (vf & _ & Hrep & _).
  apply calc_stack_replacement_info_inr in Hrep as (d & Hd & Ht & Hn).
  rewrite Hfin in Hd. inversion Hd; subst d.
  rewrite <- Hdeg, Ld in Ht.
  rewrite (np_divide_nonzero _ _ Hnz) in Ht. cbn [npf_mul] in Ht.
  rewrite Havg, Hnum, Hn, Ht. split; reflexivity.
Qed.

(** X17: the outcomes of [run] that do not depend on the cycle count: a
    zero timestep fails with a division by zero before anything else;
    otherwise an empty series fails with an index error at
    [cluster_status[0]]; and with the degradation penalty and the cycling
    mechanism on and the fatigue mechanism switched off (the cycle count is
    then never called), [run] returns its two bundles on every non-empty
    series. *)
Theorem run_outcomes (self : PEM_H2_Clusters)
    (input_external_power_kw : list Q) :
  (dt self == 0 -> run_ self input_external_power_kw = inl ZeroDivisionError)
  /\ (~ dt self == 0 -> run_ self [] = inl IndexError)
  /\ (~ dt self == 0 -> input_external_power_kw <> [] ->
      include_deg_penalty self = true -> use_onoff_deg self = true ->
      use_fatigue_deg self = false ->
      exists res agg, run_ self input_external_power_kw = inr (res, agg)).
Proof.
  split; [|split].
  - intros H. unfold run. apply Qeq_bool_iff in H. now rewrite H.
  - intros H. unfold run. apply Qeq_bool_false_iff in H. now rewrite H.
  - intros Hdt Hne Hinc Hon _. now apply run_returns.
Qed.

(** X18: when [run] returns, the voltage with degradation of a step is the
    cell voltage at the corrected stack current of that step plus the
    degradation of that step, and the power consumed is the number of
    stacks on times current times that voltage times the 130 cells, in kW. *)
Theorem run_aged_voltage_and_power (self : PEM_H2_Clusters)
    (input_external_power_kw : list Q)
    (res : h2_results) (agg : h2_results_aggregates) (t : nat) :
  run_ self input_external_power_kw = inr (res, agg) ->
  (t < length input_external_power_kw)%nat ->
  nth t (V_cell_With_Deg res) 0
  = cell_design_ T_C (nth t (Stack_Current_A res) 0)
    + nth t (System_Degradation_V res) 0
  /\ nth t (Power_Consumed_kWh res) 0
     = nth t (Stacks_on res) 0
       * (nth t (Stack_Current_A res) 0 * nth t (V_cell_With_Deg res) 0
          * 130 / 1000).
Proof.
  intros Hrun Ht.
  destruct (run_inr_lengths _ _ _ _ Hrun)
    as (Li & Ls & Lst & Lp & Lsc & Ld & Lno & Lh).
  destruct (run_inr_outputs _ _ _ _ Hrun)
    as (b & cnt & Hb & _ & _ & Hsc & _ & Hvc & Hdeg & _ & _ & _ & Hpc & _).
  destruct (run_branch_inr_fields _ _ _ _ _ Hb) as (vf & _ & _ & _ & _ & HVc).
  assert (HV : V_cell_With_Deg res
               = Np.map2 Qplus (map (cell_design_ T_C) (Stack_Current_A res))
                         (System_Degradation_V res))
    by (rewrite Hvc, HVc, Hsc, Hdeg; reflexivity).
  assert (Lvc : length (V_cell_With_Deg res) = length input_external_power_kw)
    by (rewrite HV, map2_length, length_map; lia).
  split.
  - rewrite HV at 1. rewrite (map2_nth _ _ _ _ 0 0) by (rewrite ?length_map; lia).
    now rewrite (map_nth_in _ _ _ 0) by lia.
  - rewrite Hpc. rewrite (map2_nth _ _ _ _ 0 0) by (rewrite ?map2_length; lia).
    now rewrite (map2_nth _ _ _ _ 0 0) by lia.
Qed.

Lemma cumsum_from_zeros_nth (n t : nat) (acc : Q) :
  (t < n)%nat -> nth t (Np.cumsum_from acc (Np.zeros n)) 0 == acc.
Proof.
  revert t acc. induction n as [|n IH]; intros t acc H; [lia|].
  change (Np.zeros (S n)) with (0 :: Np.zeros n). cbn [Np.cumsum_from].
  destruct t as [|t]; cbn [nth]; [ring|].
  rewrite IH by lia. ring.
Qed.

Lemma cumsum_onoff_nth (cluster_status : list Z) (t : nat) :
  Forall (fun s => s = 0%Z \/ s = 1%Z) cluster_status ->
  (t < length cluster_status)%nat ->
  nth t (Np.cumsum (calc_onoff_degradation cluster_status)) 0
  == onoff_deg_rate * inject_Z (off_transitions_upto cluster_status t).
Proof.
  intros Hb Ht.
  assert (Hne : cluster_status <> [])
    by (destruct cluster_status; simpl in *; [lia|congruence]).
  assert (Hinc : forall u, (u < length cluster_status)%nat ->
            nth u (calc_onoff_degradation cluster_status) 0
            = onoff_deg_rate
              * inject_Z (if turns_off cluster_status u then 1 else 0)).
  { intros u Hu. unfold calc_onoff_degradation.
    rewrite (map_nth_in _ _ _ 0%Z) by (rewrite off_cycle_cnt_length; auto).
    now rewrite off_cycle_cnt_nth. }
  pose proof (calc_onoff_degradation_length cluster_status Hne) as Hlen.
  induction t as [|t IH].
  - rewrite cumsum_0 by lia. rewrite Hinc by lia.
    change (off_transitions_upto cluster_status 0) with 0%Z.
    change (turns_off cluster_status 0) with false. cbv iota. ring.
  - rewrite cumsum_S by lia. rewrite IH by lia. rewrite Hinc by lia.
    rewrite off_transitions_upto_S, inject_Z_plus. ring.
Qed.

Lemma cycling_only_degradation_nth (self : PEM_H2_Clusters)
    (input_external_power_kw : list Q)
    (res : h2_results) (agg : h2_results_aggregates) (t : nat) :
  run_ self input_external_power_kw = inr (res, agg) ->
  use_uptime_deg self = false ->
  use_fatigue_deg self = false ->
  (t < length input_external_power_kw)%nat ->
  let cluster_status :=
    system_design (fst (external_power_supply self input_external_power_kw))
                  (max_stacks self) in
  nth t (System_Degradation_V res) 0
  == onoff_deg_rate * inject_Z (off_transitions_upto cluster_status t).
Proof.
  intros Hrun Hup Hfat Ht cluster_status.
  destruct (run_inr_lengths _ _ _ _ Hrun) as (Li & Ls & _ & Lp & _ & Ld & _).
  destruct (run_inr_outputs _ _ _ _ Hrun)
    as (b & cnt & Hb & Hcnt & _ & _ & _ & _ & Hdeg & _).
  fold cluster_status in Hb, Ls.
  destruct (run_branch_inr_fields _ _ _ _ _ Hb) as (vf & Hfd & _).
  assert (Hfd' := Hfd).
  apply full_degradation_inr_length in Hfd' as [_ Hc];
    [|apply (nonempty_of_length _ input_external_power_kw); [assumption|];
      destruct input_external_power_kw; [simpl in Ht; lia|discriminate]
     |now rewrite !length_map, Lp].
  rewrite Hcnt in Hc.
  unfold full_degradation in Hfd. rewrite Hup, Hfat in Hfd.
  destruct (use_onoff_deg self); [|discriminate].
  cbn [bind ret] in Hfd. inversion Hfd as [[Hvf Hd]]. clear Hfd Hvf.
  rewrite Hdeg, <- Hd.
  set (m := length (Np.map2 (fun v s => v * inject_Z s) _ cluster_status)).
  assert (Hm : m = length input_external_power_kw).
  { unfold m. rewrite map2_length, !length_map, Lp. lia. }
  assert (Lon : length (calc_onoff_degradation cluster_status)
                = length input_external_power_kw).
  { rewrite calc_onoff_degradation_length; [exact Ls|].
    apply (nonempty_of_length _ input_external_power_kw); [assumption|].
    destruct input_external_power_kw; [simpl in Ht; lia|discriminate]. }
  rewrite (map2_nth _ _ _ _ 0 0);
    [|rewrite map2_length, !cumsum_length, zeros_length; lia
     |rewrite zeros_length; lia].
  rewrite (map2_nth _ _ _ _ 0 0);
    [|rewrite cumsum_length, zeros_length; lia|rewrite cumsum_length; lia].
  rewrite zeros_nth. unfold Np.cumsum at 1.
  rewrite cumsum_from_zeros_nth by lia.
  rewrite cumsum_onoff_nth; [ring|apply system_design_binary|lia].
Qed.


Lemma run_final_degradation_is_last (self : PEM_H2_Clusters)
    (input_external_power_kw : list Q)
    (res : h2_results) (agg : h2_results_aggregates) :
  run_ self input_external_power_kw = inr (res, agg) ->
  Final_Degradation_V agg
  = nth (length input_external_power_kw - 1) (System_Degradation_V res) 0.
Proof.
  intros Hrun.
  destruct (run_inr_lengths _ _ _ _ Hrun) as (_ & _ & _ & _ & _ & Ld & _).
  destruct (run_inr_outputs _ _ _ _ Hrun)
    as (b & cnt & _ & _ & _ & _ & _ & _ & Hdeg & _ & _ & _ & _ & _ & Hfin & _).
  rewrite Hdeg, <- Ld, Hdeg. now apply last_elem_nth.
Qed.

(** X20: with a timestep shorter than the start-up time of 600 s, the
    start-up factor [1 - 600/dt] is negative: at a step where the cluster
    starts, the hydrogen output [run] reports is the output without
    start-up loss times a negative number. *)
Theorem run_short_timestep_negative_startup_factor (self : PEM_H2_Clusters)
    (input_external_power_kw : list Q)
    (res : h2_results) (agg : h2_results_aggregates) (t : nat) :
  run_ self input_external_power_kw = inr (res, agg) ->
  (t < length input_external_power_kw)%nat ->
  0 < dt self -> dt self < 600 ->
  starts_up (system_design
               (fst (external_power_supply self input_external_power_kw))
               (max_stacks self)) t = true ->
  1 - startup_time / dt self < 0
  /\ nth t (hydrogen_hourly_production res) 0
     = nth t (hydrogen_production_no_startup_time res) 0
       * (1 - startup_time / dt self).
Proof.
  intros Hrun Ht Hdt0 Hdt Hstart.
  destruct (run_inr_lengths _ _ _ _ Hrun)
    as (Li & Ls & Lst & Lp & Lsc & Ld & Lno & Lh).
  destruct (run_inr _ _ _ _ _ _ _ _ _ _ Hrun)
    as (_ & _ & _ & _ & _ & _ & _ & Hh2 & _).
  set (cluster_status :=
         system_design (fst (external_power_supply self input_external_power_kw))
                       (max_stacks self)) in *.
  split.
  - unfold startup_time.
    assert (H : 1 < 600 / dt self) by (apply Qlt_shift_div_l; lra).
    set (q := 600 / dt self) in *. lra.
  - rewrite Hh2 at 1. rewrite (map2_nth _ _ _ _ 0 0);
      [|lia|unfold h2_multiplier; rewrite length_map; simpl;
            rewrite diff_length; lia].
    rewrite h2_multiplier_nth; [|apply system_design_binary|lia].
    now rewrite Hstart.
Qed.

End SimulationOutputs.

(** ** Sample runs *)

(** The sample cluster returns on three hours at 1000, 0 and 1000 kW. *)
Lemma sample_run_returns :
  exists res agg,
    run lin_log lin_sqrt lin_exp lin_arcsinh lin_power half_cycles
        one_stack [1000; 0; 1000] = inr (res, agg).
Proof.
  apply run_returns; try reflexivity; discriminate.
Qed.

(** A witness for X9: the series of the sample run. *)
Lemma run_series_have_input_length_witness :
  exists res agg,
    run lin_log lin_sqrt lin_exp lin_arcsinh lin_power half_cycles
        one_stack [1000; 0; 1000] = inr (res, agg)
    /\ length (Input_Power_kWh res) = 3%nat
    /\ length (hydrogen_production_no_startup_time res) = 3%nat
    /\ length (hydrogen_hourly_production res) = 3%nat
    /\ length (water_hourly_usage_gal res) = 3%nat
    /\ length (water_hourly_usage_kg res) = 3%nat
    /\ length (electrolyzer_total_efficiency_perc res) = 3%nat
    /\ length (kwh_per_kgH2 res) = 3%nat
    /\ length (Power_Consumed_kWh res) = 3%nat
    /\ length (Stacks_on res) = 3%nat
    /\ length (Power_Per_Stack_kW res) = 3%nat
    /\ length (Stack_Current_A res) = 3%nat
    /\ length (V_cell_No_Deg res) = 3%nat
    /\ length (V_cell_With_Deg res) = 3%nat
    /\ length (System_Degradation_V res) = 3%nat.
Proof.
  destruct sample_run_returns as (res & agg & Hrun).
  exists res, agg. split; [exact Hrun|].
  exact (run_series_have_input_length
           lin_log lin_sqrt lin_exp lin_arcsinh lin_power half_cycles
           one_stack [1000; 0; 1000] res agg Hrun).
Defined.

(** The cluster with the cycling mechanism alone returns on the same
    series, and one switch-off leaves a final degradation of [rate_cycle]. *)
Lemma cycling_only_run_returns :
  exists res agg,
    run lin_log lin_sqrt lin_exp lin_arcsinh lin_power half_cycles
        cycling_only [1000; 0; 1000] = inr (res, agg).
Proof.
  apply run_returns; try reflexivity; discriminate.
Qed.

Lemma cycling_only_final_degradation (res : h2_results)
    (agg : h2_results_aggregates) :
  run lin_log lin_sqrt lin_exp lin_arcsinh lin_power half_cycles
      cycling_only [1000; 0; 1000] = inr (res, agg) ->
  ~ Final_Degradation_V agg == 0.
Proof.
  intros Hrun.
  rewrite (run_final_degradation_is_last _ _ _ _ _ _ _ _ _ _ Hrun).
  cbn [length Nat.sub].
  rewrite (cycling_only_degradation_nth _ _ _ _ _ _ _ _ _ _ 2 Hrun)
    by (try reflexivity; simpl; lia).
  intros E. vm_compute in E. discriminate.
Qed.

(** A witness for X10: the second hour of the sample run, at 0 kW. *)
Lemma run_stacks_on_all_or_nothing_witness :
  exists res agg,
    run lin_log lin_sqrt lin_exp lin_arcsinh lin_power half_cycles
        one_stack [1000; 0; 1000] = inr (res, agg)
    /\ (nth 1 (fst (external_power_supply one_stack [1000; 0; 1000])) 0
        < 0.1 * max_stacks one_stack ->
        nth 1 (Stacks_on res) 0 == 0)
    /\ (0.1 * max_stacks one_stack
        <= nth 1 (fst (external_power_supply one_stack [1000; 0; 1000])) 0 ->
        nth 1 (Stacks_on res) 0 == max_stacks one_stack).
Proof.
  destruct sample_run_returns as (res & agg & Hrun).
  exists res, agg. split; [exact Hrun|].
  apply (run_stacks_on_all_or_nothing
           lin_log lin_sqrt lin_exp lin_arcsinh lin_power half_cycles
           one_stack [1000; 0; 1000] res agg 1 Hrun).
  simpl. lia.
Defined.

(** A witness for X11: the first hour of the sample run, at 1000 kW. *)
Lemma run_power_per_stack_within_rating_witness :
  exists res agg,
    run lin_log lin_sqrt lin_exp lin_arcsinh lin_power half_cycles
        one_stack [1000; 0; 1000] = inr (res, agg)
    /\ (0 <= nth 0 (Power_Per_Stack_kW res) 0
        /\ nth 0 (Power_Per_Stack_kW res) 0 <= stack_rating_kW)
    /\ (0 < nth 0 (Stacks_on res) 0 ->
        nth 0 (Power_Per_Stack_kW res) 0 * nth 0 (Stacks_on res) 0
        == nth 0 (fst (external_power_supply one_stack [1000; 0; 1000])) 0).
Proof.
  destruct sample_run_returns as (res & agg & Hrun).
  exists res, agg. split; [exact Hrun|].
  apply (run_power_per_stack_within_rating
           lin_log lin_sqrt lin_exp lin_arcsinh lin_power half_cycles
           one_stack [1000; 0; 1000] res agg 0 Hrun).
  simpl. lia.
Defined.

(** A witness for X12: the third hour of the sample run. *)
Lemma run_hydrogen_never_negative_witness :
  exists res agg,
    run lin_log lin_sqrt lin_exp lin_arcsinh lin_power half_cycles
        one_stack [1000; 0; 1000] = inr (res, agg)
    /\ 0 <= nth 2 (Stack_Current_A res) 0
    /\ (0 <= max_stacks one_stack -> 600 <= dt one_stack ->
        0 <= nth 2 (hydrogen_hourly_production res) 0
        /\ nth 2 (hydrogen_hourly_production res) 0
           <= nth 2 (hydrogen_production_no_startup_time res) 0).
Proof.
  destruct sample_run_returns as (res & agg & Hrun).
  exists res, agg. split; [exact Hrun|].
  exact (run_hydrogen_never_negative
           lin_log lin_sqrt lin_exp lin_arcsinh lin_power half_cycles
           one_stack [1000; 0; 1000] res agg 2 Hrun).
Defined.

(** A witness for X13: the first hour of the sample run. *)
Lemma run_water_is_ten_times_hydrogen_witness :
  exists res agg,
    run lin_log lin_sqrt lin_exp lin_arcsinh lin_power half_cycles
        one_stack [1000; 0; 1000] = inr (res, agg)
    /\ nth 0 (water_hourly_usage_kg res) 0
       == 10 * nth 0 (hydrogen_hourly_production res) 0
    /\ nth 0 (water_hourly_usage_gal res) 0
       == 10 * nth 0 (hydrogen_hourly_production res) 0 / 3.79.
Proof.
  destruct sample_run_returns as (res & agg & Hrun).
  exists res, agg. split; [exact Hrun|].
  exact (run_water_is_ten_times_hydrogen
           lin_log lin_sqrt lin_exp lin_arcsinh lin_power half_cycles
           one_stack [1000; 0; 1000] res agg 0 Hrun).
Defined.

(** A witness for X14: the second hour of the sample run, at 0 kW. *)
Lemma run_efficiency_undefined_at_zero_power_witness :
  exists res agg,
    run lin_log lin_sqrt lin_exp lin_arcsinh lin_power half_cycles
        one_stack [1000; 0; 1000] = inr (res, agg)
    /\ is_finite (nth 1 (electrolyzer_total_efficiency_perc res) (Fin 0)) = false.
Proof.
  destruct sample_run_returns as (res & agg & Hrun).
  exists res, agg. split; [exact Hrun|].
  apply (run_efficiency_undefined_at_zero_power
           lin_log lin_sqrt lin_exp lin_arcsinh lin_power half_cycles
           one_stack [1000; 0; 1000] res agg 1 Hrun).
  - simpl. lia.
  - reflexivity.
Defined.

(** A witness for X15: the totals of the sample run. *)
Lemma run_totals_count_the_status_series_witness :
  exists res agg,
    run lin_log lin_sqrt lin_exp lin_arcsinh lin_power half_cycles
        one_stack [1000; 0; 1000] = inr (res, agg)
    /\ Total_Off_Cycles agg
       = off_transitions_upto
           (system_design (fst (external_power_supply one_stack [1000; 0; 1000]))
                          (max_stacks one_stack))
           (length [1000; 0; 1000] - 1)
    /\ Total_Uptime_sec agg
       == inject_Z (Z.of_nat (on_steps
            (system_design (fst (external_power_supply one_stack [1000; 0; 1000]))
                           (max_stacks one_stack))))
          * dt one_stack
    /\ Final_Degradation_V agg
       = nth (length [1000; 0; 1000] - 1) (System_Degradation_V res) 0.
Proof.
  destruct sample_run_returns as (res & agg & Hrun).
  exists res, agg. split; [exact Hrun|].
  exact (run_totals_count_the_status_series
           lin_log lin_sqrt lin_exp lin_arcsinh lin_power half_cycles
           one_stack [1000; 0; 1000] res agg Hrun eq_refl).
Defined.

(** A witness for X16: the cluster with the cycling mechanism alone, whose
    final degradation is [rate_cycle]. *)
Lemma run_replacement_schedule_witness :
  exists res agg,
    run lin_log lin_sqrt lin_exp lin_arcsinh lin_power half_cycles
        cycling_only [1000; 0; 1000] = inr (res, agg)
    /\ Avg_hrs_until_Replacement_Per_Stack agg
       = Fin (d_eol cycling_only / Final_Degradation_V agg
              * (inject_Z (Z.of_nat (length [1000; 0; 1000]))
                 * dt cycling_only / 3600))
    /\ Number_of_Lifetime_Cluster_Replacements agg
       = np_divide (plant_life_years cycling_only * 8760)
                   (d_eol cycling_only / Final_Degradation_V agg
                    * (inject_Z (Z.of_nat (length [1000; 0; 1000]))
                       * dt cycling_only / 3600)).
Proof.
  destruct cycling_only_run_returns as (res & agg & Hrun).
  exists res, agg. split; [exact Hrun|].
  exact (run_replacement_schedule
           lin_log lin_sqrt lin_exp lin_arcsinh lin_power half_cycles
           cycling_only [1000; 0; 1000] res agg Hrun
           (cycling_only_final_degradation res agg Hrun)).
Defined.

(** A witness for X17: the cluster with the cycling mechanism alone, whose
    fatigue mechanism is off, returns on the sample series. *)
Lemma run_outcomes_witness :
  exists res agg,
    run lin_log lin_sqrt lin_exp lin_arcsinh lin_power half_cycles
        cycling_only [1000; 0; 1000] = inr (res, agg).
Proof.
  apply (proj2 (proj2 (run_outcomes
           lin_log lin_sqrt lin_exp lin_arcsinh lin_power half_cycles
           cycling_only [1000; 0; 1000])));
    try reflexivity; discriminate.
Defined.

(** A witness for X18: the third hour of the sample run. *)
Lemma run_aged_voltage_and_power_witness :
  exists res agg,
    run lin_log lin_sqrt lin_exp lin_arcsinh lin_power half_cycles
        one_stack [1000; 0; 1000] = inr (res, agg)
    /\ nth 2 (V_cell_With_Deg res) 0
       = cell_design lin_log lin_sqrt lin_exp lin_arcsinh lin_power T_C
           (nth 2 (Stack_Current_A res) 0)
         + nth 2 (System_Degradation_V res) 0
    /\ nth 2 (Power_Consumed_kWh res) 0
       = nth 2 (Stacks_on res) 0
         * (nth 2 (Stack_Current_A res) 0 * nth 2 (V_cell_With_Deg res) 0
            * 130 / 1000).
Proof.
  destruct sample_run_returns as (res & agg & Hrun).
  exists res, agg. split; [exact Hrun|].
  apply (run_aged_voltage_and_power
           lin_log lin_sqrt lin_exp lin_arcsinh lin_power half_cycles
           one_stack [1000; 0; 1000] res agg 2 Hrun).
  simpl. lia.
Defined.


(** A witness for X20: one step of five minutes at 1000 kW. *)
Lemma run_short_timestep_negative_startup_factor_witness :
  exists res agg,
    run lin_log lin_sqrt lin_exp lin_arcsinh lin_power half_cycles
        five_minute_steps [1000] = inr (res, agg)
    /\ 1 - startup_time / dt five_minute_steps < 0
    /\ nth 0 (hydrogen_hourly_production res) 0
       = nth 0 (hydrogen_production_no_startup_time res) 0
         * (1 - startup_time / dt five_minute_steps).
Proof.
  destruct (run_returns lin_log lin_sqrt lin_exp lin_arcsinh lin_power
              half_cycles five_minute_steps [1000]) as (res & agg & Hrun);
    try reflexivity; try discriminate.
  exists res, agg. split; [exact Hrun|].
  apply (run_short_timestep_negative_startup_factor
           lin_log lin_sqrt lin_exp lin_arcsinh lin_power half_cycles
           five_minute_steps [1000] res agg 0 Hrun);
    try reflexivity.
  simpl. lia.
Defined.

(** ** The ohmic overpotential *)

(** X21: the ohmic overpotential of [calc_V_ohmic] is proportional to the
    stack current, whatever the exponential function returns: scaling the
    current scales it by the same factor, and it vanishes at zero current,
    where the cell voltage of [cell_design] is the reversible voltage plus
    the activation term alone. *)
Theorem calc_V_ohmic_proportional_to_current
    (np_log np_sqrt np_exp np_arcsinh : Q -> Q) (np_power : Q -> Q -> Q)
    (Stack_T I_stack k : Q) :
  calc_V_ohmic np_exp Stack_T (k * I_stack) cell_active_area membrane_thickness
  == k * calc_V_ohmic np_exp Stack_T I_stack cell_active_area membrane_thickness
  /\ calc_V_ohmic np_exp Stack_T 0 cell_active_area membrane_thickness == 0
  /\ cell_design np_log np_sqrt np_exp np_arcsinh np_power Stack_T 0
     == calc_reversible_cell_voltage np_log np_sqrt np_power Stack_T
        + calc_V_act np_arcsinh Stack_T 0 cell_active_area.
Proof.
  unfold cell_design, calc_V_ohmic.
  set (R_tot := membrane_thickness / _ + 3.5 * 1e-5).
  unfold cell_active_area, Qdiv. repeat split; ring.
Qed.
